(** * robottelo.vm: the virtual machine lifecycle helper

    A shallow embedding of [robottelo/vm.py].  The class [VirtualMachine]
    becomes a record, its methods become computations in a small
    state-and-exception monad over the object and the chronological list of
    calls made to the outside world ([ssh.command], [ssh.download_file],
    [ssh.upload_file], [time.sleep] and the katello-ca helpers).  What the
    outside world answers is a parameter of the development. *)

From Stdlib Require Import ZArith String Ascii List Bool DecimalString Lia.
Import ListNotations.
Open Scope list_scope.
Open Scope string_scope.

(** ** Python values and string primitives *)

Inductive PyException : Type :=
| VirtualMachineError (message : string)
| IndexError
| UnboundLocalError (name : string)
| TypeError
| AssertionError
| RuntimeError (message : string).

(** Result of evaluating an expression that may raise. *)
Inductive Outcome (A : Type) : Type :=
| Returned (value : A)
| Raised (exn : PyException).
Arguments Returned {A} value.
Arguments Raised {A} exn.

(** [str(n)] for an integer. *)
Definition str_of_int (n : Z) : string :=
  NilZero.string_of_int (Z.to_int n).

(** What [format] renders for a value that may be [None]. *)
Definition str_of_optional (v : option string) : string :=
  match v with
  | Some s => s
  | None => "None"
  end.

(** Truth value of an optional string: [None] and [''] are false. *)
Definition truthy (v : option string) : bool :=
  match v with
  | Some s => negb (s =? "")
  | None => false
  end.

Definition is_not_None {A : Type} (v : option A) : bool :=
  match v with
  | Some _ => true
  | None => false
  end.

Definition optional_eqb (a b : option string) : bool :=
  match a, b with
  | Some x, Some y => x =? y
  | None, None => true
  | _, _ => false
  end.

(** [s.split(sep)] for a one-character separator. *)
Fixpoint split (sep : ascii) (s : string) : list string :=
  match s with
  | EmptyString => [EmptyString]
  | String c rest =>
      if Ascii.eqb c sep then EmptyString :: split sep rest
      else match split sep rest with
           | piece :: pieces => String c piece :: pieces
           | [] => [String c EmptyString]
           end
  end.

(** [s.split(sep, 1)] for a one-character separator. *)
Fixpoint split_once (sep : ascii) (s : string) : list string :=
  match s with
  | EmptyString => [EmptyString]
  | String c rest =>
      if Ascii.eqb c sep then [EmptyString; rest]
      else match split_once sep rest with
           | piece :: pieces => String c piece :: pieces
           | [] => [String c EmptyString]
           end
  end.

(** [l[i]] for a non-negative index. *)
Definition subscript {A : Type} (l : list A) (i : nat) : Outcome A :=
  match nth_error l i with
  | Some x => Returned x
  | None => Raised IndexError
  end.

Fixpoint endswith_char (s : string) (c : ascii) : bool :=
  match s with
  | EmptyString => false
  | String d EmptyString => Ascii.eqb d c
  | String _ rest => endswith_char rest c
  end.

Definition startswith_char (s : string) (c : ascii) : bool :=
  match s with
  | String d _ => Ascii.eqb d c
  | EmptyString => false
  end.

(** [os.path.join(a, b)] on a POSIX system; a first component that is
    [None] makes the call raise ([TypeError]; [AttributeError] on Python 2,
    at the same point). *)
Definition os_path_join (a : option string) (b : string) : Outcome string :=
  match a with
  | None => Raised TypeError
  | Some a =>
      if startswith_char b "/" then Returned b
      else if (a =? "") || endswith_char a "/" then Returned (a ++ b)
      else Returned (a ++ "/" ++ b)
  end.

(** ** The outside world *)

(** [robottelo.ssh.SSHCommandResult]; [stderr] is the text that [format]
    renders for it. *)
Record SSHCommandResult : Type := mkSSHCommandResult {
  return_code : Z;
  stdout : list string;
  stderr : string
}.

(** One call that leaves the process. *)
Inductive Event : Type :=
| SshCommand (cmd : string) (hostname : option string)
| SshDownloadFile (remote_path : string) (local_path : option string)
    (hostname : option string)
| SshUploadFile (local_path : string) (remote_path : option string)
    (hostname : option string)
| TimeSleep (seconds : Z)
| InstallKatelloCa (hostname : option string)
| RemoveKatelloCa (hostname : option string).

(** The answers of the collaborators, as functions of everything that was
    called before. *)
Record Remote : Type := mkRemote {
  ssh_result : list Event -> string -> option string -> SSHCommandResult;
  install_katello_ca_passes : list Event -> option string -> bool;
  remove_katello_ca_passes : list Event -> option string -> bool
}.

(** The fields of [robottelo.config.settings] that [vm.py] reads. *)
Record Settings : Type := mkSettings {
  distro_image_el6 : option string;
  distro_image_el7 : option string;
  clients_provisioning_server : option string;
  clients_image_dir : option string;
  server_hostname : option string;
  server_admin_username : option string;
  server_admin_password : option string;
  rhel6_repo : option string;
  rhel7_repo : option string;
  rhai_insights_client_el6repo : option string;
  rhai_insights_client_el7repo : option string
}.

(** ** The object *)

Record VirtualMachine : Type := mkVirtualMachine {
  cpu : Z;
  ram : Z;
  distro : option string;
  provisioning_server : string;
  image_dir : option string;
  _hostname : option string;
  ip_addr : option string;
  _domain : option string;
  _created : bool;
  _subscribed : bool;
  _target_image : string
}.

Definition set_ip_addr (v : option string) (vm : VirtualMachine) : VirtualMachine :=
  mkVirtualMachine (cpu vm) (ram vm) (distro vm) (provisioning_server vm)
    (image_dir vm) (_hostname vm) v (_domain vm) (_created vm)
    (_subscribed vm) (_target_image vm).

Definition set_created (b : bool) (vm : VirtualMachine) : VirtualMachine :=
  mkVirtualMachine (cpu vm) (ram vm) (distro vm) (provisioning_server vm)
    (image_dir vm) (_hostname vm) (ip_addr vm) (_domain vm) b
    (_subscribed vm) (_target_image vm).

Definition set_subscribed (b : bool) (vm : VirtualMachine) : VirtualMachine :=
  mkVirtualMachine (cpu vm) (ram vm) (distro vm) (provisioning_server vm)
    (image_dir vm) (_hostname vm) (ip_addr vm) (_domain vm) (_created vm)
    b (_target_image vm).

(** The lifecycle as the class records it: the single flag [_created].
    No field and no value of a field stands for a destroyed machine. *)
Inductive LifecycleState : Type := Uninitialized | Created | Destroyed.

Definition lifecycleState (vm : VirtualMachine) : LifecycleState :=
  if _created vm then Created else Uninitialized.

(** ** The monad of methods *)

Record Machine : Type := mkMachine {
  self : VirtualMachine;
  history : list Event
}.

Definition M (A : Type) : Type := Machine -> Outcome A * Machine.

Definition ret {A : Type} (a : A) : M A := fun m => (Returned a, m).

Definition raise {A : Type} (e : PyException) : M A := fun m => (Raised e, m).

Definition bind {A B : Type} (c : M A) (k : A -> M B) : M B :=
  fun m =>
    match c m with
    | (Returned a, m') => k a m'
    | (Raised e, m') => (Raised e, m')
    end.

Declare Scope py_scope.
Delimit Scope py_scope with py.
Notation "x <- c ;; k" := (bind c (fun x => k))
  (at level 100, c at next level, right associativity) : py_scope.
Notation "c ;;; k" := (bind c (fun _ => k))
  (at level 100, right associativity) : py_scope.
Open Scope py_scope.

(** An expression evaluated for its value inside a method. *)
Definition eval {A : Type} (o : Outcome A) : M A := fun m => (o, m).

Definition read {A : Type} (f : VirtualMachine -> A) : M A :=
  fun m => (Returned (f (self m)), m).

Definition assign (f : VirtualMachine -> VirtualMachine) : M unit :=
  fun m => (Returned tt, mkMachine (f (self m)) (history m)).

Definition emit (e : Event) : M unit :=
  fun m => (Returned tt, mkMachine (self m) (history m ++ [e])%list).

(** Reading a local variable that may not have been bound. *)
Definition local {A : Type} (name : string) (v : option A) : M A :=
  match v with
  | Some a => ret a
  | None => raise (UnboundLocalError name)
  end.

(** [try: c except AssertionError: raise e]. *)
Definition except_AssertionError {A : Type} (c : M A) (e : PyException) : M A :=
  fun m =>
    match c m with
    | (Raised AssertionError, m') => (Raised e, m')
    | r => r
    end.

Definition newline : string := String (ascii_of_nat 10) EmptyString.

Definition double_quote : string := String (ascii_of_nat 34) EmptyString.

(** ** The class [VirtualMachine] *)

Section Vm.

Variable settings : Settings.
Variable remote : Remote.
(** [robottelo.constants.DISTRO_RHEL6] and [DISTRO_RHEL7]. *)
Variable DISTRO_RHEL6 DISTRO_RHEL7 : string.

(** [ssh.command(cmd, hostname)]. *)
Definition ssh_command (cmd : string) (hostname : option string)
  : M SSHCommandResult :=
  fun m =>
    (Returned (ssh_result remote (history m) cmd hostname),
     mkMachine (self m) (history m ++ [SshCommand cmd hostname])%list).

Definition ssh_download_file (remote_path : string) (local_path : option string)
    (hostname : option string) : M unit :=
  emit (SshDownloadFile remote_path local_path hostname).

Definition ssh_upload_file (local_path : string) (remote_path : option string)
    (hostname : option string) : M unit :=
  emit (SshUploadFile local_path remote_path hostname).

Definition time_sleep (seconds : Z) : M unit := emit (TimeSleep seconds).

(** [robottelo.helpers.install_katello_ca(hostname)]: fails by an
    assertion. *)
Definition helpers_install_katello_ca (hostname : option string) : M unit :=
  fun m =>
    (if install_katello_ca_passes remote (history m) hostname
     then Returned tt else Raised AssertionError,
     mkMachine (self m) (history m ++ [InstallKatelloCa hostname])%list).

Definition helpers_remove_katello_ca (hostname : option string) : M unit :=
  fun m =>
    (if remove_katello_ca_passes remote (history m) hostname
     then Returned tt else Raised AssertionError,
     mkMachine (self m) (history m ++ [RemoveKatelloCa hostname])%list).

(** The three rebinding steps of the [distro] argument in [__init__]. *)
Definition resolve_distro (distro : option string) : option string :=
  let distro_el6 := distro_image_el6 settings in
  let distro_el7 := distro_image_el7 settings in
  let distro :=
    if optional_eqb distro (Some "rhel6") then distro_el6 else distro in
  let distro :=
    if optional_eqb distro (Some "rhel7") then distro_el7 else distro in
  if is_not_None distro then distro else distro_el7.

(** [distro in (distro_el6, distro_el7)]. *)
Definition supported_distro (distro : option string) : bool :=
  optional_eqb distro (distro_image_el6 settings)
  || optional_eqb distro (distro_image_el7 settings).

(** The provisioning server [__init__] stores: the argument, or the
    configured one when the argument is [None]. *)
Definition resolve_provisioning_server (provisioning_server : option string)
  : option string :=
  match provisioning_server with
  | None => clients_provisioning_server settings
  | Some _ => provisioning_server
  end.

(** [provisioning_server is None or provisioning_server == '']. *)
Definition missing_provisioning_server (server : option string) : bool :=
  negb (is_not_None server) || optional_eqb server (Some "").

(** [VirtualMachine.__init__]; [id_self] is [id(self)]. *)
Definition __init__ (cpu ram : Z)
    (distro provisioning_server image_dir tag hostname domain
       target_image : option string)
    (id_self : Z) : Outcome VirtualMachine :=
  let distro := resolve_distro distro in
  if negb (supported_distro distro)
  then
    Raised (VirtualMachineError
              (str_of_optional distro
               ++ " is not a supported distro. Choose one of "
               ++ str_of_optional (distro_image_el6 settings) ++ ", "
               ++ str_of_optional (distro_image_el7 settings)))
  else
    let self_provisioning_server :=
      resolve_provisioning_server provisioning_server in
    if missing_provisioning_server self_provisioning_server
    then
      Raised (VirtualMachineError
                ("A provisioning server must be provided. Make sure to fill "
                 ++ double_quote ++ "provisioning_server" ++ double_quote
                 ++ " on clients section of your robottelo "
                 ++ "configuration. Or provide a not None provisioning_server "
                 ++ "argument."))
    else
      let self_image_dir :=
        match image_dir with
        | None => clients_image_dir settings
        | Some _ => image_dir
        end in
      let self_target_image :=
        if truthy target_image then str_of_optional target_image
        else str_of_int id_self in
      let self_target_image :=
        if truthy tag then str_of_optional tag ++ self_target_image
        else self_target_image in
      Returned
        (mkVirtualMachine cpu ram distro
           (str_of_optional self_provisioning_server) self_image_dir
           hostname None domain false false self_target_image).

(** The property [domain]. *)
Definition domain (vm : VirtualMachine) : Outcome string :=
  match _domain vm with
  | None =>
      match subscript (split_once "." (provisioning_server vm)) 1 with
      | Raised IndexError =>
          Raised (VirtualMachineError
                    ("Failed to fetch domain from provisioning server: "
                     ++ provisioning_server vm ++ " "))
      | other => other
      end
  | Some d => Returned d
  end.

(** The property [hostname]. *)
Definition hostname (vm : VirtualMachine) : Outcome string :=
  if truthy (_hostname vm) then Returned (str_of_optional (_hostname vm))
  else
    match domain vm with
    | Returned d => Returned (_target_image vm ++ "." ++ d)
    | Raised e => Raised e
    end.

(** The property [target_image]. *)
Definition target_image (vm : VirtualMachine) : Outcome string :=
  if truthy (_hostname vm) then Returned (_target_image vm)
  else hostname vm.

(** The arguments of the snap-guest call, each placeholder already filled
    in ([format] does not scan the values it inserts). *)
Definition command_args (vm : VirtualMachine)
    (target_image hostname domain : string) : list string :=
  List.app
    ["snap-guest";
     "-b " ++ (str_of_optional (distro vm) ++ "-base");
     "-t " ++ target_image;
     "-m " ++ str_of_int (ram vm);
     "-c " ++ str_of_int (cpu vm);
     "-n bridge=br0 -f"]
    (List.app
       (if is_not_None (image_dir vm)
        then ["-p " ++ str_of_optional (image_dir vm)] else [])
       (List.app
          (if is_not_None (_hostname vm)
           then ["--hostname " ++ hostname] else [])
          (if is_not_None (_domain vm)
           then ["-d " ++ domain] else []))).

Definition ping_command (vm : VirtualMachine) : string :=
  "ping -c 1 " ++ _target_image vm ++ ".local".

(** [output.split('(')[1].split(')')[0]], the address parsed from the
    output of ping. *)
Definition parse_address (output : string) : Outcome string :=
  match subscript (split "(" output) 1 with
  | Returned after_paren => subscript (split ")" after_paren) 0
  | Raised e => Raised e
  end.

(** [VirtualMachine.create]. *)
Definition create : M unit :=
  created <- read _created ;;
  if created then ret tt
  else
    vm <- read (fun vm => vm) ;;
    target_image <- eval (target_image vm) ;;
    hostname <- eval (hostname vm) ;;
    domain <- eval (domain vm) ;;
    let command :=
      String.concat " " (command_args vm target_image hostname domain) in
    result <- ssh_command command (Some (provisioning_server vm)) ;;
    if negb (return_code result =? 0)%Z
    then raise (VirtualMachineError
                  ("Failed to run snap-guest: " ++ stderr result))
    else
      time_sleep 60 ;;;
      result <- ssh_command (ping_command vm)
                  (Some (provisioning_server vm)) ;;
      if negb (return_code result =? 0)%Z
      then raise (VirtualMachineError
                    "Failed to fetch virtual machine IP address information")
      else
        let output := String.concat "" (stdout result) in
        address <- eval (parse_address output) ;;
        assign (set_ip_addr (Some address)) ;;;
        assign (set_created true).

(** [VirtualMachine.run]. *)
Definition run (cmd : string) : M SSHCommandResult :=
  created <- read _created ;;
  if negb created
  then raise (VirtualMachineError
                ("The virtual machine should be created before running any ssh "
                 ++ "command"))
  else
    ip <- read ip_addr ;;
    ssh_command cmd ip.

(** [VirtualMachine.get]. *)
Definition get (remote_path : string) (local_path : option string) : M unit :=
  created <- read _created ;;
  if negb created
  then raise (VirtualMachineError
                "The virtual machine should be created before getting any file")
  else
    ip <- read ip_addr ;;
    ssh_download_file remote_path local_path ip.

(** [VirtualMachine.put]. *)
Definition put (local_path : string) (remote_path : option string) : M unit :=
  created <- read _created ;;
  if negb created
  then raise (VirtualMachineError
                "The virtual machine should be created before putting any file")
  else
    ip <- read ip_addr ;;
    ssh_upload_file local_path remote_path ip.

(** [VirtualMachine.unregister]. *)
Definition unregister : M SSHCommandResult :=
  run "subscription-manager unregister".

(** [VirtualMachine.destroy]. *)
Definition destroy : M unit :=
  created <- read _created ;;
  if negb created then ret tt
  else
    subscribed <- read _subscribed ;;
    (if subscribed then (unregister ;;; ret tt) else ret tt) ;;;
    vm <- read (fun vm => vm) ;;
    name <- eval (target_image vm) ;;
    ssh_command ("virsh destroy " ++ name) (Some (provisioning_server vm)) ;;;
    name <- eval (target_image vm) ;;
    ssh_command ("virsh undefine " ++ name) (Some (provisioning_server vm)) ;;;
    name <- eval (target_image vm) ;;
    let image_name := name ++ ".img" in
    path <- eval (os_path_join (image_dir vm) image_name) ;;
    ssh_command ("rm " ++ path) (Some (provisioning_server vm)) ;;;
    ret tt.

(** [VirtualMachine.download_install_rpm]. *)
Definition download_install_rpm (repo_url package_name : string) : M unit :=
  run ("wget -nd -r -l1 --no-parent -A '" ++ package_name ++ ".rpm' "
       ++ repo_url) ;;;
  run ("rpm -i " ++ package_name ++ ".rpm") ;;;
  result <- run ("rpm -q " ++ package_name) ;;
  if negb (return_code result =? 0)%Z
  then raise (VirtualMachineError
                ("Failed to install " ++ package_name ++ " rpm."))
  else ret tt.

(** [VirtualMachine.enable_repo]. *)
Definition enable_repo (repo : string) : M unit :=
  run ("subscription-manager repos --enable " ++ repo) ;;;
  ret tt.

(** [VirtualMachine.install_katello_agent]. *)
Definition install_katello_agent : M unit :=
  run "yum install -y katello-agent" ;;;
  result <- run "rpm -q katello-agent" ;;
  if negb (return_code result =? 0)%Z
  then raise (VirtualMachineError "Failed to install katello-agent")
  else ret tt.

(** [VirtualMachine.install_katello_ca]. *)
Definition install_katello_ca : M unit :=
  ip <- read ip_addr ;;
  except_AssertionError (helpers_install_katello_ca ip)
    (VirtualMachineError "Failed to download and install the katello-ca rpm").

(** [VirtualMachine.remove_katello_ca]. *)
Definition remove_katello_ca : M unit :=
  ip <- read ip_addr ;;
  except_AssertionError (helpers_remove_katello_ca ip)
    (VirtualMachineError "Failed to remove the katello-ca rpm").

(** The command line that [register_contenthost] builds, when one of the
    two strategies is given. *)
Definition register_command (org : string) (activation_key lce : option string)
    (force : bool) (releasever : option string) : option string :=
  let cmd := "subscription-manager register --org " ++ org in
  let strategy :=
    match activation_key, lce with
    | Some key, _ => Some (cmd ++ (" --activationkey " ++ key))
    | None, Some env =>
        Some (cmd ++ (" --environment " ++ env
                      ++ " --username "
                      ++ str_of_optional (server_admin_username settings)
                      ++ " --password "
                      ++ str_of_optional (server_admin_password settings)))
    | None, None => None
    end in
  match strategy with
  | None => None
  | Some cmd =>
      let cmd :=
        match releasever with
        | Some v => cmd ++ (" --release " ++ v)
        | None => cmd
        end in
      let cmd := if force then cmd ++ " --force" else cmd in
      Some cmd
  end.

(** [VirtualMachine.register_contenthost]. *)
Definition register_contenthost (org : string)
    (activation_key lce : option string) (force : bool)
    (releasever : option string) : M SSHCommandResult :=
  match register_command org activation_key lce force releasever with
  | None =>
      raise (VirtualMachineError
               ("Please provide either activation key or lifecycle "
                ++ "environment name to successfully register a host"))
  | Some cmd =>
      result <- run cmd ;;
      (if (return_code result =? 0)%Z
       then assign (set_subscribed true) else ret tt) ;;;
      ret result
  end.

(** [VirtualMachine.configure_rhel_repo]. *)
Definition configure_rhel_repo (rhel_repo : option string) : M unit :=
  run ("wget -O /etc/yum.repos.d/rhel.repo " ++ str_of_optional rhel_repo) ;;;
  ret tt.

Definition puppet_conf : string :=
  let sat6_hostname := str_of_optional (server_hostname settings) in
  "pluginsync      = true" ++ newline
  ++ "report          = true" ++ newline
  ++ "ignoreschedules = true" ++ newline
  ++ "daemon          = false" ++ newline
  ++ "ca_server       = " ++ sat6_hostname ++ newline
  ++ "server          = " ++ sat6_hostname ++ newline.

(** [VirtualMachine.configure_puppet]. *)
Definition configure_puppet (rhel_repo : option string) : M unit :=
  configure_rhel_repo rhel_repo ;;;
  result <- run "yum install puppet -y" ;;
  if negb (return_code result =? 0)%Z
  then raise (VirtualMachineError "Failed to install the puppet rpm")
  else
    run ("echo " ++ double_quote ++ puppet_conf ++ double_quote
         ++ " >> /etc/puppet/puppet.conf") ;;;
    run "puppet agent -t" ;;;
    ssh_command "puppet cert sign --all" None ;;;
    run "puppet agent -t 2> /dev/null" ;;;
    ret tt.

Definition policy_lookup_command : string :=
  "awk -F " ++ double_quote ++ "/" ++ double_quote
  ++ " '/download_path/ {print $4}' "
  ++ "/etc/foreman_scap_client/config.yaml".

(** [VirtualMachine.execute_foreman_scap_client].  The local variable
    [result] is bound only on the branch that looks the policy up. *)
Definition execute_foreman_scap_client (policy_id : option string) : M unit :=
  bound <-
    match policy_id with
    | None =>
        result <- run policy_lookup_command ;;
        policy_id <- eval (subscript (stdout result) 0) ;;
        ret (Some result, policy_id)
    | Some policy_id => ret (None, policy_id)
    end ;;
  let '(result, policy_id) := bound in
  run ("foreman_scap_client " ++ policy_id) ;;;
  result <- local "result" result ;;
  if negb (return_code result =? 0)%Z
  then raise (VirtualMachineError
                "Failed to execute foreman_scap_client run.")
  else ret tt.

(** [VirtualMachine.configure_rhai_client].  The locals [rhel_repo] and
    [insights_repo] are bound only when [rhel_distro] is one of the two
    constants; the [logger.info] call is left out. *)
Definition configure_rhai_client (activation_key : option string)
    (org rhel_distro : string) : M unit :=
  install_katello_ca ;;;
  register_contenthost org activation_key None true None ;;;
  let repos : option (option string) * option (option string) :=
    (None, None) in
  let repos :=
    if rhel_distro =? DISTRO_RHEL6
    then (Some (rhel6_repo settings),
          Some (rhai_insights_client_el6repo settings))
    else repos in
  let repos :=
    if rhel_distro =? DISTRO_RHEL7
    then (Some (rhel7_repo settings),
          Some (rhai_insights_client_el7repo settings))
    else repos in
  let '(rhel_repo, insights_repo) := repos in
  insights_repo <- local "insights_repo" insights_repo ;;
  let missing_repos :=
    if is_not_None insights_repo then [] else ["RHAI client"] in
  rhel_repo <- local "rhel_repo" rhel_repo ;;
  let missing_repos :=
    if is_not_None rhel_repo then missing_repos
    else List.app missing_repos ["RHEL"] in
  match missing_repos with
  | _ :: _ =>
      raise (VirtualMachineError
               ("Missing " ++ String.concat " and " missing_repos
                ++ " repository configuration for " ++ rhel_distro ++ "."))
  | [] =>
      configure_rhel_repo rhel_repo ;;;
      run ("wget -O /etc/yum.repos.d/insights.repo "
           ++ str_of_optional insights_repo) ;;;
      let package_name := "redhat-access-insights" in
      result <- run ("yum install -y " ++ package_name) ;;
      if negb (return_code result =? 0)%Z
      then raise (VirtualMachineError
                    "Unable to install redhat-access-insights package")
      else
        result <- run ("rpm -qi " ++ package_name) ;;
        if negb (return_code result =? 0)%Z
        then raise (VirtualMachineError
                      "Unable to install redhat-access-insights package")
        else
          result <- run "redhat-access-insights --register" ;;
          if negb (return_code result =? 0)%Z
          then raise (VirtualMachineError
                        ("Unable to register client to Access Insights through "
                         ++ "Satellite"))
          else ret tt
  end.

(** [VirtualMachine.__enter__]. *)
Definition __enter__ : M VirtualMachine :=
  create ;;;
  read (fun vm => vm).

(** [VirtualMachine.__exit__]; it returns [None], so an error of the
    block is not suppressed. *)
Definition __exit__ : M unit := destroy.

(** [with vm: body], for a block that may return or raise: the exit
    method is not called when the enter method raises; an error raised by
    the exit method replaces the outcome of the block. *)
Definition with_statement {A : Type} (body : M A) : M A :=
  fun m =>
    match __enter__ m with
    | (Raised e, m1) => (Raised e, m1)
    | (Returned _, m1) =>
        let '(outcome, m2) := body m1 in
        match __exit__ m2 with
        | (Returned _, m3) => (outcome, m3)
        | (Raised e, m3) => (Raised e, m3)
        end
    end.

(** The public operations of the class, for statements about all of them. *)
Inductive Operation : Type :=
| Create
| Destroy
| Run (cmd : string)
| Get (remote_path : string) (local_path : option string)
| Put (local_path : string) (remote_path : option string)
| Unregister
| RegisterContenthost (org : string) (activation_key lce : option string)
    (force : bool) (releasever : option string)
| DownloadInstallRpm (repo_url package_name : string)
| EnableRepo (repo : string)
| InstallKatelloAgent
| InstallKatelloCaOp
| RemoveKatelloCaOp
| ConfigureRhelRepo (rhel_repo : option string)
| ConfigurePuppet (rhel_repo : option string)
| ExecuteForemanScapClient (policy_id : option string)
| ConfigureRhaiClient (activation_key : option string) (org rhel_distro : string)
| Enter
| Exit.

Definition discard {A : Type} (c : M A) : M unit := c ;;; ret tt.

Definition perform (op : Operation) : M unit :=
  match op with
  | Create => create
  | Destroy => destroy
  | Run cmd => discard (run cmd)
  | Get remote_path local_path => get remote_path local_path
  | Put local_path remote_path => put local_path remote_path
  | Unregister => discard unregister
  | RegisterContenthost org activation_key lce force releasever =>
      discard (register_contenthost org activation_key lce force releasever)
  | DownloadInstallRpm repo_url package_name =>
      download_install_rpm repo_url package_name
  | EnableRepo repo => enable_repo repo
  | InstallKatelloAgent => install_katello_agent
  | InstallKatelloCaOp => install_katello_ca
  | RemoveKatelloCaOp => remove_katello_ca
  | ConfigureRhelRepo rhel_repo => configure_rhel_repo rhel_repo
  | ConfigurePuppet rhel_repo => configure_puppet rhel_repo
  | ExecuteForemanScapClient policy_id => execute_foreman_scap_client policy_id
  | ConfigureRhaiClient activation_key org rhel_distro =>
      configure_rhai_client activation_key org rhel_distro
  | Enter => discard __enter__
  | Exit => __exit__
  end.

(** The two invariants of the data model, on the fields of the object. *)
Definition address_iff_created (vm : VirtualMachine) : Prop :=
  ip_addr vm <> None <-> lifecycleState vm = Created.

Definition subscribed_only_created (vm : VirtualMachine) : Prop :=
  _subscribed vm = true -> lifecycleState vm = Created.

Definition invariant (vm : VirtualMachine) : Prop :=
  address_iff_created vm /\ subscribed_only_created vm.

(** The calls that [destroy] makes on a created machine whose image is
    called [name] and stored at [path]. *)
Definition unregister_events (vm : VirtualMachine) : list Event :=
  if _subscribed vm
  then [SshCommand "subscription-manager unregister" (ip_addr vm)]
  else [].

Definition teardown_events (vm : VirtualMachine) (name path : string)
  : list Event :=
  [SshCommand ("virsh destroy " ++ name) (Some (provisioning_server vm));
   SshCommand ("virsh undefine " ++ name) (Some (provisioning_server vm));
   SshCommand ("rm " ++ path) (Some (provisioning_server vm))].

(** Whether a call is the snap-guest invocation. *)
Definition is_provisioning (e : Event) : bool :=
  match e with
  | SshCommand cmd _ => prefix "snap-guest" cmd
  | _ => false
  end.

(** ** Basic facts *)

Lemma lifecycle_created (vm : VirtualMachine) :
  lifecycleState vm = Created <-> _created vm = true.
Proof.
  unfold lifecycleState. destruct (_created vm); split; congruence.
Qed.

Lemma lifecycle_not_created (vm : VirtualMachine) :
  lifecycleState vm <> Created <-> _created vm = false.
Proof.
  unfold lifecycleState. destruct (_created vm); split; congruence.
Qed.

Lemma lifecycle_never_destroyed (vm : VirtualMachine) :
  lifecycleState vm <> Destroyed.
Proof.
  unfold lifecycleState. destruct (_created vm); discriminate.
Qed.

Lemma run_not_created (cmd : string) (m : Machine) :
  _created (self m) = false ->
  run cmd m =
    (Raised (VirtualMachineError
               ("The virtual machine should be created before running any ssh "
                ++ "command")), m).
Proof.
  intros H. unfold run, bind, read. rewrite H. reflexivity.
Qed.

Lemma run_created (cmd : string) (m : Machine) :
  _created (self m) = true ->
  run cmd m =
    (Returned (ssh_result remote (history m) cmd (ip_addr (self m))),
     mkMachine (self m)
       (history m ++ [SshCommand cmd (ip_addr (self m))])%list).
Proof.
  intros H. unfold run, bind, read. rewrite H. reflexivity.
Qed.

Lemma destroy_not_created (m : Machine) :
  _created (self m) = false -> destroy m = (Returned tt, m).
Proof.
  intros H. unfold destroy, bind, read, ret. rewrite H. reflexivity.
Qed.

Lemma destroy_created (m : Machine) (name path : string) :
  _created (self m) = true ->
  target_image (self m) = Returned name ->
  os_path_join (image_dir (self m)) (name ++ ".img") = Returned path ->
  destroy m =
    (Returned tt,
     mkMachine (self m)
       (history m
        ++ (unregister_events (self m)
            ++ teardown_events (self m) name path))%list).
Proof.
  intros Hc Hn Hp.
  unfold destroy, unregister, unregister_events, teardown_events.
  unfold bind at 1. unfold read at 1. cbn [self]. rewrite Hc. cbn [negb].
  unfold bind at 1. unfold read at 1. cbn [self].
  destruct (_subscribed (self m)).
  - unfold bind at 1. unfold bind at 1. rewrite (run_created _ m Hc).
    unfold ret at 1, bind, read, eval, ssh_command, ret. cbn [self history].
    rewrite Hn, Hp. cbn [self history].
    repeat rewrite <- app_assoc. reflexivity.
  - unfold bind, read, eval, ssh_command, ret. cbn [self history].
    rewrite Hn, Hp. cbn [self history].
    repeat rewrite <- app_assoc. reflexivity.
Qed.

(** C6: a machine that is not in the created state refuses [run], [get]
    and [put]: each raises [VirtualMachineError] (the one error class of
    the module) and the machine, with its record of remote calls, is
    left as it was. *)
Theorem run_get_put_refused_unless_created
    (m : Machine) (cmd remote_path local_path : string)
    (local_target remote_target : option string) :
  lifecycleState (self m) <> Created ->
  (exists msg, run cmd m = (Raised (VirtualMachineError msg), m))
  /\ (exists msg,
        get remote_path local_target m = (Raised (VirtualMachineError msg), m))
  /\ (exists msg,
        put local_path remote_target m = (Raised (VirtualMachineError msg), m)).
Proof.
  intros H. apply lifecycle_not_created in H.
  repeat split; eexists.
  - apply run_not_created. exact H.
  - unfold get, bind, read. rewrite H. reflexivity.
  - unfold put, bind, read. rewrite H. reflexivity.
Qed.

Lemma create_already_created (m : Machine) :
  _created (self m) = true -> create m = (Returned tt, m).
Proof.
  intros H. unfold create, bind, read, ret. rewrite H. reflexivity.
Qed.

(** What a call of [create] that returns has done. *)
Lemma create_returns (m m1 : Machine) :
  _created (self m) = false ->
  create m = (Returned tt, m1) ->
  exists name host dom address,
    target_image (self m) = Returned name
    /\ hostname (self m) = Returned host
    /\ domain (self m) = Returned dom
    /\ let server := Some (provisioning_server (self m)) in
       let command :=
         String.concat " " (command_args (self m) name host dom) in
       let booted :=
         (history m ++ [SshCommand command server] ++ [TimeSleep 60])%list in
       let probe := ssh_result remote booted (ping_command (self m)) server in
       return_code (ssh_result remote (history m) command server) = 0%Z
       /\ return_code probe = 0%Z
       /\ parse_address (String.concat "" (stdout probe)) = Returned address
       /\ m1 = mkMachine
                 (set_created true (set_ip_addr (Some address) (self m)))
                 (history m
                  ++ [SshCommand command server; TimeSleep 60;
                      SshCommand (ping_command (self m)) server])%list.
Proof.
  intros Hc H. unfold create in H.
  unfold bind at 1 in H. unfold read at 1 in H. cbn [self] in H.
  rewrite Hc in H.
  unfold bind at 1 in H. unfold read at 1 in H.
  unfold bind at 1 in H. unfold eval at 1 in H.
  destruct (target_image (self m)) as [name|]; [|discriminate].
  unfold bind at 1 in H. unfold eval at 1 in H.
  destruct (hostname (self m)) as [host|]; [|discriminate].
  unfold bind at 1 in H. unfold eval at 1 in H.
  destruct (domain (self m)) as [dom|]; [|discriminate].
  unfold bind at 1 in H. unfold ssh_command at 1 in H. cbn [self history] in H.
  destruct (return_code
              (ssh_result remote (history m)
                 (String.concat " " (command_args (self m) name host dom))
                 (Some (provisioning_server (self m)))) =? 0)%Z eqn:Hsnap;
    cbn [negb] in H; [|discriminate].
  unfold bind at 1 in H. unfold time_sleep, emit in H.
  cbn [self history] in H.
  unfold bind at 1 in H. unfold ssh_command at 1 in H.
  cbn [self history] in H.
  rewrite <- app_assoc in H.
  match type of H with
  | context [(return_code ?r =? 0)%Z] =>
      destruct (return_code r =? 0)%Z eqn:Hping
  end; cbn [negb] in H; [|discriminate].
  unfold bind at 1 in H. unfold eval at 1 in H.
  match type of H with
  | context [parse_address ?o] =>
      destruct (parse_address o) as [address|] eqn:Hparse
  end; [|discriminate].
  unfold bind, assign in H. cbn [self history] in H.
  inversion H; subst; clear H.
  exists name, host, dom, address. cbv zeta.
  repeat split; try reflexivity.
  - apply Z.eqb_eq, Hsnap.
  - apply Z.eqb_eq, Hping.
  - exact Hparse.
  - repeat rewrite <- app_assoc. reflexivity.
Qed.

(** C5: a second [create] right after one that returned changes nothing,
    neither a field of the object nor the record of remote calls; and the
    first, on a machine not yet created, makes the snap-guest call exactly
    once, so the two calls together make it exactly once. *)
Theorem create_twice_provisions_once (m m1 : Machine) :
  lifecycleState (self m) <> Created ->
  create m = (Returned tt, m1) ->
  create m1 = (Returned tt, m1)
  /\ (create ;;; create) m = (Returned tt, m1)
  /\ exists calls,
       history m1 = (history m ++ calls)%list
       /\ List.length (List.filter is_provisioning calls) = 1%nat.
Proof.
  intros Hn Hcreate.
  assert (Hcreated : _created (self m1) = true).
  { apply lifecycle_not_created in Hn.
    destruct (create_returns m m1 Hn Hcreate)
      as (name & host & dom & address & _ & _ & _ & _ & _ & _ & ->).
    reflexivity. }
  split; [apply create_already_created, Hcreated|].
  split.
  - unfold bind. rewrite Hcreate. apply create_already_created, Hcreated.
  - apply lifecycle_not_created in Hn.
    destruct (create_returns m m1 Hn Hcreate)
      as (name & host & dom & address & _ & _ & _ & _ & _ & _ & ->).
    eexists. split; [reflexivity|].
    reflexivity.
Qed.

Lemma register_command_none (org : string) (activation_key lce : option string)
    (force : bool) (releasever : option string) :
  register_command org activation_key lce force releasever = None
  <-> activation_key = None /\ lce = None.
Proof.
  unfold register_command.
  destruct activation_key, lce; split; intros H;
    try discriminate; try reflexivity; try (destruct H; discriminate);
    auto.
Qed.

(** C7, as the code has it: without activation key and without lifecycle
    environment [register_contenthost] raises [VirtualMachineError] and
    makes no remote call, in every state.  With one of them, on a created
    machine, it runs the one registration command, sets [_subscribed]
    exactly when that command exits 0 and returns the result of the
    command as it is; on a machine that is not created it raises
    [VirtualMachineError] and makes no remote call. *)
Theorem register_contenthost_outcomes
    (m : Machine) (org : string) (activation_key lce : option string)
    (force : bool) (releasever : option string) :
  (exists msg,
     register_contenthost org None None force releasever m
     = (Raised (VirtualMachineError msg), m))
  /\ ((activation_key <> None \/ lce <> None) ->
      lifecycleState (self m) = Created ->
      exists cmd,
        register_command org activation_key lce force releasever = Some cmd
        /\ let result :=
             ssh_result remote (history m) cmd (ip_addr (self m)) in
           register_contenthost org activation_key lce force releasever m
           = (Returned result,
              mkMachine
                (if (return_code result =? 0)%Z
                 then set_subscribed true (self m) else self m)
                (history m ++ [SshCommand cmd (ip_addr (self m))])%list))
  /\ ((activation_key <> None \/ lce <> None) ->
      lifecycleState (self m) <> Created ->
      exists msg,
        register_contenthost org activation_key lce force releasever m
        = (Raised (VirtualMachineError msg), m)).
Proof.
  split; [|split].
  - eexists. unfold register_contenthost, register_command. reflexivity.
  - intros Hkey Hc. apply lifecycle_created in Hc.
    destruct (register_command org activation_key lce force releasever)
      as [cmd|] eqn:Hcmd.
    + exists cmd. split; [reflexivity|]. cbv zeta.
      unfold register_contenthost. rewrite Hcmd.
      unfold bind at 1. rewrite (run_created cmd m Hc).
      destruct (return_code _ =? 0)%Z; reflexivity.
    + apply register_command_none in Hcmd. destruct Hcmd as [-> ->].
      destruct Hkey as [Hkey|Hkey]; contradiction.
  - intros Hkey Hn. apply lifecycle_not_created in Hn.
    destruct (register_command org activation_key lce force releasever)
      as [cmd|] eqn:Hcmd.
    + eexists. unfold register_contenthost. rewrite Hcmd.
      unfold bind at 1. rewrite (run_not_created cmd m Hn). reflexivity.
    + apply register_command_none in Hcmd. destruct Hcmd as [-> ->].
      destruct Hkey as [Hkey|Hkey]; contradiction.
Qed.

(** C10: on a created machine, [execute_foreman_scap_client] with a
    policy id runs the scan and then raises on reading the local
    [result], which that branch never binds, whatever the remote commands
    answer; without a policy id the final check reads the result of the
    lookup command, so when the lookup exits 0 and the scan exits
    non-zero the call still returns without error. *)
Theorem execute_foreman_scap_client_checks_wrong_result (m : Machine) :
  lifecycleState (self m) = Created ->
  (forall policy_id,
     execute_foreman_scap_client (Some policy_id) m
     = (Raised (UnboundLocalError "result"),
        mkMachine (self m)
          (history m
           ++ [SshCommand ("foreman_scap_client " ++ policy_id)
                 (ip_addr (self m))])%list))
  /\ (forall policy_id rest,
        let ip := ip_addr (self m) in
        let lookup := ssh_result remote (history m) policy_lookup_command ip in
        let scan_cmd := "foreman_scap_client " ++ policy_id in
        let scan :=
          ssh_result remote
            (history m ++ [SshCommand policy_lookup_command ip])%list
            scan_cmd ip in
        stdout lookup = policy_id :: rest ->
        return_code lookup = 0%Z ->
        return_code scan <> 0%Z ->
        execute_foreman_scap_client None m
        = (Returned tt,
           mkMachine (self m)
             (history m
              ++ [SshCommand policy_lookup_command ip;
                  SshCommand scan_cmd ip])%list)).
Proof.
  intros Hc. apply lifecycle_created in Hc. split.
  - intros policy_id. unfold execute_foreman_scap_client.
    unfold bind at 1. unfold ret at 1.
    unfold bind at 1.
    rewrite (run_created _ m Hc). reflexivity.
  - intros policy_id rest ip lookup scan_cmd scan Hout Hrc _.
    unfold execute_foreman_scap_client.
    unfold bind at 1. unfold bind at 1.
    rewrite (run_created _ m Hc).
    unfold bind at 1. unfold eval at 1.
    fold ip. fold lookup. rewrite Hout.
    unfold subscript, nth_error, ret at 1.
    unfold bind at 1.
    rewrite run_created by exact Hc. cbn [self history].
    unfold bind, local, ret. rewrite Hrc. cbn.
    rewrite <- app_assoc. reflexivity.
Qed.

(** The defect seen from the side of the lookup: when the lookup, the one
    command whose result is checked, exits non-zero, the scan is still
    sent before the error is raised. *)
Lemma execute_foreman_scap_client_scans_after_failed_lookup
    (m : Machine) (policy_id : string) (rest : list string) :
  let ip := ip_addr (self m) in
  let lookup := ssh_result remote (history m) policy_lookup_command ip in
  _created (self m) = true ->
  stdout lookup = policy_id :: rest ->
  return_code lookup <> 0%Z ->
  execute_foreman_scap_client None m
  = (Raised (VirtualMachineError "Failed to execute foreman_scap_client run."),
     mkMachine (self m)
       (history m
        ++ [SshCommand policy_lookup_command ip;
            SshCommand ("foreman_scap_client " ++ policy_id) ip])%list).
Proof.
  intros ip lookup Hc Hout Hrc.
  unfold execute_foreman_scap_client.
  unfold bind at 1. unfold bind at 1.
  rewrite (run_created _ m Hc).
  unfold bind at 1. unfold eval at 1.
  fold ip. fold lookup. rewrite Hout.
  unfold subscript, nth_error, ret at 1.
  unfold bind at 1.
  rewrite run_created by exact Hc. cbn [self history].
  unfold bind, local, ret.
  apply Z.eqb_neq in Hrc. rewrite Hrc. cbn.
  rewrite <- app_assoc. reflexivity.
Qed.

(** The helpers whose checks are placed right after the command they
    check do stop there. *)
Lemma configure_puppet_stops_at_failed_install
    (m : Machine) (rhel_repo : option string) :
  let ip := ip_addr (self m) in
  let fetch :=
    "wget -O /etc/yum.repos.d/rhel.repo " ++ str_of_optional rhel_repo in
  let install :=
    ssh_result remote (history m ++ [SshCommand fetch ip])%list
      "yum install puppet -y" ip in
  _created (self m) = true ->
  return_code install <> 0%Z ->
  configure_puppet rhel_repo m
  = (Raised (VirtualMachineError "Failed to install the puppet rpm"),
     mkMachine (self m)
       (history m
        ++ [SshCommand fetch ip; SshCommand "yum install puppet -y" ip])%list).
Proof.
  intros ip fetch install Hc Hrc.
  unfold configure_puppet, configure_rhel_repo.
  unfold bind at 1. unfold bind at 1.
  rewrite (run_created _ m Hc). unfold ret at 1.
  unfold bind at 1. rewrite run_created by exact Hc. cbn [self history].
  fold ip. fold fetch. fold install.
  apply Z.eqb_neq in Hrc. rewrite Hrc. cbn.
  rewrite <- app_assoc. reflexivity.
Qed.

Lemma download_install_rpm_raises_on_failed_query
    (m : Machine) (repo_url package_name : string) :
  let ip := ip_addr (self m) in
  let fetch :=
    "wget -nd -r -l1 --no-parent -A '" ++ package_name ++ ".rpm' "
    ++ repo_url in
  let install := "rpm -i " ++ package_name ++ ".rpm" in
  let query := "rpm -q " ++ package_name in
  let calls := [SshCommand fetch ip; SshCommand install ip] in
  _created (self m) = true ->
  return_code (ssh_result remote (history m ++ calls)%list query ip) <> 0%Z ->
  download_install_rpm repo_url package_name m
  = (Raised (VirtualMachineError
               ("Failed to install " ++ package_name ++ " rpm.")),
     mkMachine (self m)
       (history m ++ calls ++ [SshCommand query ip])%list).
Proof.
  intros ip fetch install query calls Hc Hrc.
  unfold download_install_rpm.
  unfold bind at 1. rewrite (run_created _ m Hc).
  unfold bind at 1. rewrite run_created by exact Hc. cbn [self history].
  unfold bind at 1. rewrite run_created by exact Hc. cbn [self history].
  fold ip. fold fetch. fold install. fold query.
  rewrite <- app_assoc. change ([SshCommand fetch ip] ++ [SshCommand install ip])%list
    with calls.
  apply Z.eqb_neq in Hrc. rewrite Hrc. cbn.
  rewrite <- app_assoc. reflexivity.
Qed.

Lemma install_katello_agent_raises_on_failed_query (m : Machine) :
  let ip := ip_addr (self m) in
  let install := SshCommand "yum install -y katello-agent" ip in
  _created (self m) = true ->
  return_code
    (ssh_result remote (history m ++ [install])%list
       "rpm -q katello-agent" ip) <> 0%Z ->
  install_katello_agent m
  = (Raised (VirtualMachineError "Failed to install katello-agent"),
     mkMachine (self m)
       (history m ++ [install; SshCommand "rpm -q katello-agent" ip])%list).
Proof.
  intros ip install Hc Hrc.
  unfold install_katello_agent.
  unfold bind at 1. rewrite (run_created _ m Hc).
  unfold bind at 1. rewrite run_created by exact Hc. cbn [self history].
  fold ip. fold install.
  apply Z.eqb_neq in Hrc. rewrite Hrc. cbn.
  rewrite <- app_assoc. reflexivity.
Qed.

(** The shape shared by every check that follows its command at once:
    when the command exits non-zero the error is raised and the rest of
    the method, [rest], is not run. *)
Lemma checked_run_stops {A : Type}
    (m : Machine) (cmd message : string) (rest : SSHCommandResult -> M A) :
  _created (self m) = true ->
  return_code (ssh_result remote (history m) cmd (ip_addr (self m))) <> 0%Z ->
  (result <- run cmd ;;
   if negb (return_code result =? 0)%Z
   then raise (VirtualMachineError message)
   else rest result) m
  = (Raised (VirtualMachineError message),
     mkMachine (self m)
       (history m ++ [SshCommand cmd (ip_addr (self m))])%list).
Proof.
  intros Hc Hrc. unfold bind. rewrite (run_created cmd m Hc).
  apply Z.eqb_neq in Hrc. rewrite Hrc. reflexivity.
Qed.

(** ** Which methods write to the object *)

(** A computation that leaves every field of the object as it was. *)
Definition keeps_self {A : Type} (c : M A) : Prop :=
  forall m, self (snd (c m)) = self m.

Lemma keeps_ret {A : Type} (a : A) : keeps_self (ret a).
Proof. intros m. reflexivity. Qed.

Lemma keeps_raise {A : Type} (e : PyException) : keeps_self (@raise A e).
Proof. intros m. reflexivity. Qed.

Lemma keeps_eval {A : Type} (o : Outcome A) : keeps_self (eval o).
Proof. intros m. reflexivity. Qed.

Lemma keeps_read {A : Type} (f : VirtualMachine -> A) : keeps_self (read f).
Proof. intros m. reflexivity. Qed.

Lemma keeps_emit (e : Event) : keeps_self (emit e).
Proof. intros m. reflexivity. Qed.

Lemma keeps_local {A : Type} (name : string) (v : option A) :
  keeps_self (local name v).
Proof. intros m. destruct v; reflexivity. Qed.

Lemma keeps_ssh_command (cmd : string) (host : option string) :
  keeps_self (ssh_command cmd host).
Proof. intros m. reflexivity. Qed.

Lemma keeps_helpers_install (host : option string) :
  keeps_self (helpers_install_katello_ca host).
Proof. intros m. reflexivity. Qed.

Lemma keeps_helpers_remove (host : option string) :
  keeps_self (helpers_remove_katello_ca host).
Proof. intros m. reflexivity. Qed.

Lemma keeps_bind {A B : Type} (c : M A) (k : A -> M B) :
  keeps_self c -> (forall a, keeps_self (k a)) -> keeps_self (bind c k).
Proof.
  intros Hc Hk m. unfold bind. specialize (Hc m).
  destruct (c m) as [[a|e] m']; cbn [snd] in *.
  - rewrite Hk. exact Hc.
  - exact Hc.
Qed.

Lemma keeps_except {A : Type} (c : M A) (e : PyException) :
  keeps_self c -> keeps_self (except_AssertionError c e).
Proof.
  intros Hc m. unfold except_AssertionError. specialize (Hc m).
  destruct (c m) as [[a|[]] m']; exact Hc.
Qed.

Ltac keeps :=
  repeat first
    [ apply keeps_bind; [|intro]
    | apply keeps_ret | apply keeps_raise | apply keeps_eval
    | apply keeps_read | apply keeps_emit | apply keeps_local
    | apply keeps_ssh_command | apply keeps_helpers_install
    | apply keeps_helpers_remove | apply keeps_except
    | assumption
    | match goal with
      | |- keeps_self (if ?b then _ else _) => destruct b
      | |- keeps_self (match ?x with _ => _ end) => destruct x
      end ].

Lemma keeps_run (cmd : string) : keeps_self (run cmd).
Proof. unfold run. keeps. Qed.

Lemma keeps_get (remote_path : string) (local_path : option string) :
  keeps_self (get remote_path local_path).
Proof. unfold get, ssh_download_file. keeps. Qed.

Lemma keeps_put (local_path : string) (remote_path : option string) :
  keeps_self (put local_path remote_path).
Proof. unfold put, ssh_upload_file. keeps. Qed.

Lemma keeps_destroy : keeps_self destroy.
Proof.
  pose proof keeps_run. unfold destroy, unregister. keeps; apply keeps_run.
Qed.

Ltac keeps_with_run := keeps; try apply keeps_run; keeps.

Lemma keeps_download_install_rpm (repo_url package_name : string) :
  keeps_self (download_install_rpm repo_url package_name).
Proof. unfold download_install_rpm. keeps_with_run. Qed.

Lemma keeps_enable_repo (repo : string) : keeps_self (enable_repo repo).
Proof. unfold enable_repo. keeps_with_run. Qed.

Lemma keeps_install_katello_agent : keeps_self install_katello_agent.
Proof. unfold install_katello_agent. keeps_with_run. Qed.

Lemma keeps_install_katello_ca : keeps_self install_katello_ca.
Proof. unfold install_katello_ca. keeps. Qed.

Lemma keeps_remove_katello_ca : keeps_self remove_katello_ca.
Proof. unfold remove_katello_ca. keeps. Qed.

Lemma keeps_configure_rhel_repo (rhel_repo : option string) :
  keeps_self (configure_rhel_repo rhel_repo).
Proof. unfold configure_rhel_repo. keeps_with_run. Qed.

Lemma keeps_configure_puppet (rhel_repo : option string) :
  keeps_self (configure_puppet rhel_repo).
Proof.
  unfold configure_puppet.
  apply keeps_bind; [apply keeps_configure_rhel_repo|intro].
  apply keeps_bind; [apply keeps_run|intro].
  destruct (negb _); [apply keeps_raise|].
  repeat (apply keeps_bind; [first [apply keeps_run|apply keeps_ssh_command]
                            |intro]).
  apply keeps_ret.
Qed.

Lemma keeps_execute_foreman_scap_client (policy_id : option string) :
  keeps_self (execute_foreman_scap_client policy_id).
Proof.
  unfold execute_foreman_scap_client.
  apply keeps_bind.
  - destruct policy_id; [apply keeps_ret|].
    apply keeps_bind; [apply keeps_run|intro]. keeps.
  - intros [result policy]. apply keeps_bind; [apply keeps_run|intro]. keeps.
Qed.

(** The two ways in which a method changes the object: [create] stores
    the address and raises the created flag; [register_contenthost] raises
    the subscribed flag, on a machine that is created. *)
Definition becomes_created (vm vm' : VirtualMachine) : Prop :=
  exists address, vm' = set_created true (set_ip_addr (Some address) vm).

Definition becomes_subscribed (vm vm' : VirtualMachine) : Prop :=
  _created vm = true /\ vm' = set_subscribed true vm.

Lemma create_writes (m : Machine) :
  self (snd (create m)) = self m
  \/ (_created (self m) = false
      /\ becomes_created (self m) (self (snd (create m)))).
Proof.
  destruct (_created (self m)) eqn:Hc.
  - left. rewrite (create_already_created m Hc). reflexivity.
  - destruct (create m) as [[[]|e] m1] eqn:Hcreate.
    + right. split; [reflexivity|].
      destruct (create_returns m m1 Hc Hcreate)
        as (name & host & dom & address & _ & _ & _ & _ & _ & _ & ->).
      exists address. reflexivity.
    + left. revert Hcreate. unfold create.
      unfold bind at 1. unfold read at 1. cbn [self]. rewrite Hc.
      unfold bind at 1. unfold read at 1.
      unfold bind at 1. unfold eval at 1.
      destruct (target_image (self m));
        [|intros H; inversion H; reflexivity].
      unfold bind at 1. unfold eval at 1.
      destruct (hostname (self m)); [|intros H; inversion H; reflexivity].
      unfold bind at 1. unfold eval at 1.
      destruct (domain (self m)); [|intros H; inversion H; reflexivity].
      unfold bind at 1. unfold ssh_command at 1. cbn [self history].
      destruct (negb _); [intros H; inversion H; reflexivity|].
      unfold bind at 1. unfold time_sleep, emit. cbn [self history].
      unfold bind at 1. unfold ssh_command at 1. cbn [self history].
      destruct (negb _); [intros H; inversion H; reflexivity|].
      unfold bind at 1. unfold eval at 1.
      destruct (parse_address _); [|intros H; inversion H; reflexivity].
      unfold bind, assign. cbn. intros H. inversion H.
Qed.

Lemma register_contenthost_writes
    (m m' : Machine) (org : string) (activation_key lce : option string)
    (force : bool) (releasever : option string) :
  snd (register_contenthost org activation_key lce force releasever m) = m' ->
  self m' = self m \/ becomes_subscribed (self m) (self m').
Proof.
  unfold register_contenthost.
  destruct (register_command _ _ _ _ _) as [cmd|];
    [|intros <-; left; reflexivity].
  unfold bind at 1.
  destruct (_created (self m)) eqn:Hc.
  - rewrite (run_created cmd m Hc).
    destruct (return_code _ =? 0)%Z; intros <-.
    + right. split; [exact Hc|reflexivity].
    + left. reflexivity.
  - rewrite (run_not_created cmd m Hc). intros <-. left. reflexivity.
Qed.

Lemma configure_rhai_client_writes
    (m m' : Machine) (activation_key : option string)
    (org rhel_distro : string) :
  snd (configure_rhai_client activation_key org rhel_distro m) = m' ->
  self m' = self m \/ becomes_subscribed (self m) (self m').
Proof.
  unfold configure_rhai_client.
  unfold bind at 1.
  pose proof (keeps_install_katello_ca m) as Hca.
  destruct (install_katello_ca m) as [[[]|e] m1]; cbn [snd] in Hca;
    [|intros <-; left; exact Hca].
  unfold bind at 1.
  pose proof (register_contenthost_writes m1 _ org activation_key None true
                None eq_refl) as Hreg.
  rewrite Hca in Hreg.
  destruct (register_contenthost org activation_key None true None m1)
    as [[result|e] m2]; cbn [snd] in Hreg; [|intros <-; exact Hreg].
  match goal with
  | |- snd (?c m2) = m' -> _ =>
      assert (Hrest : keeps_self c);
      [|intros <-; rewrite (Hrest m2); exact Hreg]
  end.
  destruct (rhel_distro =? DISTRO_RHEL6), (rhel_distro =? DISTRO_RHEL7);
    cbn;
    repeat first
      [ apply keeps_raise | apply keeps_ret | apply keeps_local
      | apply keeps_run | apply keeps_configure_rhel_repo
      | apply keeps_bind; [|intro]
      | match goal with
        | |- keeps_self (if ?b then _ else _) => destruct b
        | |- keeps_self (match ?x with _ => _ end) => destruct x
        end ].
Qed.

Lemma invariant_becomes_created (vm vm' : VirtualMachine) :
  becomes_created vm vm' -> invariant vm'.
Proof.
  intros [address ->]. split.
  - split; intros _; [reflexivity|discriminate].
  - intros _. reflexivity.
Qed.

Lemma invariant_becomes_subscribed (vm vm' : VirtualMachine) :
  invariant vm -> becomes_subscribed vm vm' -> invariant vm'.
Proof.
  intros [Haddr Hsub] [Hc ->]. split.
  - exact Haddr.
  - intros _. apply lifecycle_created. exact Hc.
Qed.

(** The states of a machine from its construction on. *)
Inductive reachable : Machine -> Prop :=
| reachable_init cpu ram distro provisioning_server image_dir tag hostname
    domain target_image id_self vm calls :
    __init__ cpu ram distro provisioning_server image_dir tag hostname
      domain target_image id_self = Returned vm ->
    reachable (mkMachine vm calls)
| reachable_perform m op :
    reachable m -> reachable (snd (perform op m)).

Lemma snd_discard {A : Type} (c : M A) (m : Machine) :
  snd (discard c m) = snd (c m).
Proof.
  unfold discard, bind, ret. destruct (c m) as [[a|e] m']; reflexivity.
Qed.

Lemma perform_writes (op : Operation) (m : Machine) :
  let vm' := self (snd (perform op m)) in
  vm' = self m
  \/ becomes_created (self m) vm'
  \/ becomes_subscribed (self m) vm'.
Proof.
  cbv zeta.
  destruct op; cbn [perform]; rewrite ?snd_discard;
    try (left;
         first [ apply keeps_destroy | apply keeps_run | apply keeps_get
               | apply keeps_put | apply keeps_download_install_rpm
               | apply keeps_enable_repo | apply keeps_install_katello_agent
               | apply keeps_install_katello_ca
               | apply keeps_remove_katello_ca
               | apply keeps_configure_rhel_repo
               | apply keeps_configure_puppet
               | apply keeps_execute_foreman_scap_client ]).
  - destruct (create_writes m) as [H|[_ H]]; auto.
  - destruct (register_contenthost_writes m _ org activation_key lce force
                releasever eq_refl); auto.
  - destruct (configure_rhai_client_writes m _ activation_key org rhel_distro
                eq_refl); auto.
  - unfold __enter__, bind, read.
    destruct (create_writes m) as [H|[_ H]];
      destruct (create m) as [[[]|e] m1]; cbn [snd self] in *; auto.
Qed.

Lemma init_invariant cpu ram distro provisioning_server image_dir tag
    hostname domain target_image id_self vm :
  __init__ cpu ram distro provisioning_server image_dir tag hostname domain
    target_image id_self = Returned vm ->
  invariant vm /\ lifecycleState vm = Uninitialized.
Proof.
  unfold __init__.
  destruct (negb (supported_distro _)); [discriminate|].
  destruct (missing_provisioning_server _); [discriminate|].
  intros H. inversion H; subst; clear H.
  split; [split|reflexivity].
  - split; intros H; [exfalso; apply H; reflexivity|discriminate].
  - intros H. discriminate.
Qed.

(** C4: every operation of the class preserves the two invariants, the
    address is stored exactly in the created state and the subscribed flag
    is up only in the created state; construction establishes them, so
    they hold in every state a machine can reach. *)
Theorem operations_preserve_invariant :
  (forall op m, invariant (self m) -> invariant (self (snd (perform op m))))
  /\ (forall m, reachable m ->
        (ip_addr (self m) <> None <-> lifecycleState (self m) = Created)
        /\ (_subscribed (self m) = true -> lifecycleState (self m) = Created)).
Proof.
  assert (Hstep : forall op m,
             invariant (self m) -> invariant (self (snd (perform op m)))).
  { intros op m Hinv.
    destruct (perform_writes op m) as [H|[H|H]].
    - rewrite H. exact Hinv.
    - eapply invariant_becomes_created, H.
    - eapply invariant_becomes_subscribed; eassumption. }
  split; [exact Hstep|].
  intros m Hreach. change (invariant (self m)).
  induction Hreach as [? ? ? ? ? ? ? ? ? ? vm calls Hinit|m op _ IH].
  - apply init_invariant in Hinit. apply Hinit.
  - apply Hstep, IH.
Qed.


Lemma os_path_join_some (dir name : string) :
  exists path, os_path_join (Some dir) name = Returned path.
Proof.
  unfold os_path_join.
  destruct (startswith_char name "/"); [eauto|].
  destruct ((dir =? "") || endswith_char dir "/"); eauto.
Qed.

(** A [create] that returns leaves the machine in the state from which
    [destroy] sends its commands: created, with a name for the image. *)
Lemma create_establishes_teardown_conditions (m m1 : Machine) :
  _created (self m) = false ->
  create m = (Returned tt, m1) ->
  lifecycleState (self m1) = Created
  /\ image_dir (self m1) = image_dir (self m)
  /\ exists name, target_image (self m1) = Returned name.
Proof.
  intros Hc Hcreate.
  destruct (create_returns m m1 Hc Hcreate)
    as (name & host & dom & address & Hn & _ & _ & _ & _ & _ & ->).
  split; [reflexivity|]. split; [reflexivity|].
  exists name. exact Hn.
Qed.

(** C1, as the code has it: [destroy] on a machine that was not created
    makes no remote call and returns; on a created machine whose image
    directory is set it unregisters first when subscribed, then sends the
    stop, undefine and remove-image commands to the provisioning server in
    that order and returns, whatever those commands answer; in no case
    does it change a field of the object, so the state after it is the
    state before it: [Created] stays [Created] and never becomes
    [Destroyed]. *)
Theorem destroy_best_effort_keeps_created :
  (forall m, lifecycleState (self m) <> Created ->
             destroy m = (Returned tt, m))
  /\ (forall m name dir,
        lifecycleState (self m) = Created ->
        target_image (self m) = Returned name ->
        image_dir (self m) = Some dir ->
        exists path,
          os_path_join (Some dir) (name ++ ".img") = Returned path
          /\ destroy m =
               (Returned tt,
                mkMachine (self m)
                  (history m
                   ++ (unregister_events (self m)
                       ++ teardown_events (self m) name path))%list))
  /\ (forall m,
        self (snd (destroy m)) = self m
        /\ lifecycleState (self (snd (destroy m))) = lifecycleState (self m)
        /\ lifecycleState (self (snd (destroy m))) <> Destroyed).
Proof.
  split; [|split].
  - intros m H. apply destroy_not_created, lifecycle_not_created, H.
  - intros m name dir Hc Hn Hd.
    destruct (os_path_join_some dir (name ++ ".img")) as [path Hp].
    exists path. split; [exact Hp|].
    assert (Hdes := destroy_created m name path
                      (proj1 (lifecycle_created _) Hc) Hn).
    rewrite Hd in Hdes. exact (Hdes Hp).
  - intros m. rewrite (keeps_destroy m).
    split; [reflexivity|]. split; [reflexivity|].
    apply lifecycle_never_destroyed.
Qed.


(** ** Parsing the address *)

Fixpoint contains_char (c : ascii) (s : string) : bool :=
  match s with
  | EmptyString => false
  | String d rest => Ascii.eqb d c || contains_char c rest
  end.

Lemma split_not_nil (c : ascii) (s : string) : split c s <> [].
Proof.
  destruct s as [|d rest]; cbn; [discriminate|].
  destruct (Ascii.eqb d c); [discriminate|].
  destruct (split c rest); discriminate.
Qed.

Lemma split_without_separator (c : ascii) (s : string) :
  contains_char c s = false -> split c s = [s].
Proof.
  induction s as [|d rest IH]; cbn; [reflexivity|].
  destruct (Ascii.eqb d c); cbn; [discriminate|].
  intros H. rewrite (IH H). reflexivity.
Qed.

Lemma split_app (c : ascii) (a r : string) :
  contains_char c a = false ->
  exists piece pieces,
    split c r = piece :: pieces
    /\ split c (a ++ r) = (a ++ piece) :: pieces.
Proof.
  induction a as [|d rest IH]; cbn.
  - intros _. destruct (split c r) as [|piece pieces] eqn:H.
    + exfalso. eapply split_not_nil, H.
    + exists piece, pieces. split; reflexivity.
  - destruct (Ascii.eqb d c); cbn; [discriminate|].
    intros H. destruct (IH H) as (piece & pieces & Hr & Har).
    exists piece, pieces. split; [exact Hr|]. rewrite Har. reflexivity.
Qed.

Lemma append_empty (s : string) : s ++ "" = s.
Proof.
  induction s as [|d rest IH]; cbn; [reflexivity|]. rewrite IH. reflexivity.
Qed.

(** Without an opening parenthesis in the output, the subscript [1]
    raises. *)
Lemma parse_address_without_parenthesis (output : string) :
  contains_char "(" output = false ->
  parse_address output = Raised IndexError.
Proof.
  intros H. unfold parse_address.
  rewrite (split_without_separator _ _ H). reflexivity.
Qed.

(** On output of the usual shape, the address is the text in the first
    pair of parentheses. *)
Lemma parse_address_parenthesized (before address rest : string) :
  contains_char "(" before = false ->
  contains_char "(" address = false ->
  contains_char ")" address = false ->
  parse_address (before ++ "(" ++ address ++ ")" ++ rest) = Returned address.
Proof.
  intros Hb Ha Hc. unfold parse_address.
  destruct (split_app "(" before ("(" ++ address ++ ")" ++ rest) Hb)
    as (p & ps & Hr & Hbr).
  rewrite Hbr. cbn in Hr. inversion Hr; subst; clear Hr.
  destruct (split_app "(" address (String ")" rest) Ha)
    as (q & qs & Hq & Haq).
  rewrite Haq. cbn [subscript nth_error].
  cbn in Hq.
  destruct (split "(" rest) as [|r rs] eqn:Hrest;
    [exfalso; eapply split_not_nil, Hrest|].
  inversion Hq; subst; clear Hq.
  destruct (split_app ")" address (String ")" r) Hc) as (u & us & Hu & Hau).
  rewrite Hau. cbn in Hu. inversion Hu; subst; clear Hu.
  cbn. rewrite append_empty. reflexivity.
Qed.

(** What [create] does when the output of ping cannot be parsed. *)
Lemma create_raises_parse_error
    (m : Machine) (name host dom : string) (e : PyException) :
  let server := Some (provisioning_server (self m)) in
  let command := String.concat " " (command_args (self m) name host dom) in
  let booted :=
    (history m ++ [SshCommand command server] ++ [TimeSleep 60])%list in
  let probe := ssh_result remote booted (ping_command (self m)) server in
  _created (self m) = false ->
  target_image (self m) = Returned name ->
  hostname (self m) = Returned host ->
  domain (self m) = Returned dom ->
  return_code (ssh_result remote (history m) command server) = 0%Z ->
  return_code probe = 0%Z ->
  parse_address (String.concat "" (stdout probe)) = Raised e ->
  create m
  = (Raised e,
     mkMachine (self m)
       (history m
        ++ [SshCommand command server; TimeSleep 60;
            SshCommand (ping_command (self m)) server])%list).
Proof.
  intros server command booted probe Hc Hn Hh Hd Hsnap Hping Hparse.
  unfold create.
  unfold bind at 1. unfold read at 1. cbn [self]. rewrite Hc.
  unfold bind at 1. unfold read at 1.
  unfold bind at 1. unfold eval at 1. rewrite Hn.
  unfold bind at 1. unfold eval at 1. rewrite Hh.
  unfold bind at 1. unfold eval at 1. rewrite Hd.
  unfold bind at 1. unfold ssh_command at 1. cbn [self history].
  fold server. fold command. rewrite Hsnap. cbn [Z.eqb negb].
  unfold bind at 1. unfold time_sleep, emit. cbn [self history].
  unfold bind at 1. unfold ssh_command at 1. cbn [self history].
  rewrite <- app_assoc. fold booted. fold probe.
  rewrite Hping. cbn [Z.eqb negb].
  unfold bind at 1. unfold eval at 1. rewrite Hparse.
  unfold booted. repeat rewrite <- app_assoc. reflexivity.
Qed.

End Vm.

(** ** Concrete scenarios *)

Definition example_settings : Settings :=
  mkSettings (Some "rhel66") (Some "rhel71")
    (Some "provisioning.example.com") (Some "/var/lib/libvirt/images")
    (Some "satellite.example.com") (Some "admin") (Some "changeme")
    None None None None.

(** The object [VirtualMachine()] builds under [example_settings] when
    [id(self)] is 140231. *)
Definition example_vm : VirtualMachine :=
  mkVirtualMachine 1 512 (Some "rhel71") "provisioning.example.com"
    (Some "/var/lib/libvirt/images") None None None false false "140231".

Definition new_machine : Machine := mkMachine example_vm [].

Definition answer (code : Z) (out : list string) : SSHCommandResult :=
  mkSSHCommandResult code out "".

Definition ping_output : list string :=
  ["PING 140231.local (192.0.2.5) 56(84) bytes of data."].

(** A provisioning server on which snap-guest and ping succeed and every
    other command exits 1. *)
Definition remote_failing_after_boot : Remote :=
  mkRemote
    (fun _ cmd _ =>
       if prefix "snap-guest" cmd then answer 0 []
       else if prefix "ping" cmd then answer 0 ping_output
       else answer 1 ["error"])
    (fun _ _ => true) (fun _ _ => true).

(** As above, but ping exits 0 with output that has no parenthesis. *)
Definition remote_unparsable_ping : Remote :=
  mkRemote
    (fun _ cmd _ =>
       if prefix "snap-guest" cmd then answer 0 []
       else if prefix "ping" cmd
            then answer 0 ["64 bytes from 192.0.2.5: icmp_seq=1 ttl=64"]
       else answer 1 ["error"])
    (fun _ _ => true) (fun _ _ => true).

(** Every command exits 0 and prints the line 7, except the scan, which
    exits 1. *)
Definition remote_scan_failing : Remote :=
  mkRemote
    (fun _ cmd _ =>
       if prefix "foreman_scap_client" cmd then answer 1 [] else answer 0 ["7"])
    (fun _ _ => true) (fun _ _ => true).

(** Every command exits 0, except the policy lookup, which prints the
    line 7 and exits 1. *)
Definition remote_lookup_failing : Remote :=
  mkRemote
    (fun _ cmd _ =>
       if prefix "awk" cmd then answer 1 ["7"] else answer 0 [])
    (fun _ _ => true) (fun _ _ => true).

(** The machine after [create] on the first server. *)
Definition booted_machine : Machine :=
  snd (create remote_failing_after_boot new_machine).

Definition created_vm : VirtualMachine :=
  set_created true (set_ip_addr (Some "192.0.2.5") example_vm).

Definition created_machine : Machine := mkMachine created_vm [].

Definition failing_block : M unit := raise (RuntimeError "test failed").

Example init_example :
  __init__ example_settings 1 512 None None None None None None None 140231
  = Returned example_vm.
Proof. reflexivity. Qed.

Example booted_machine_created :
  create remote_failing_after_boot new_machine = (Returned tt, booted_machine)
  /\ self booted_machine = created_vm.
Proof. split; reflexivity. Qed.

Example parse_address_example :
  parse_address "PING vm.local (192.0.2.5) 56(84) bytes of data."
  = Returned "192.0.2.5".
Proof. reflexivity. Qed.

(** The address stops at the next opening parenthesis as well, and a
    missing closing parenthesis is no error. *)
Example parse_address_nested : parse_address "a(b(c)d" = Returned "b".
Proof. reflexivity. Qed.

Example parse_address_unclosed :
  parse_address "PING vm.local (192.0.2.5" = Returned "192.0.2.5".
Proof. reflexivity. Qed.

(** ** The claims on concrete runs *)

Lemma run_get_put_refused_witness :
  (exists msg,
     run remote_failing_after_boot "ls" new_machine
     = (Raised (VirtualMachineError msg), new_machine))
  /\ (exists msg,
        get "/etc/hosts" None new_machine
        = (Raised (VirtualMachineError msg), new_machine))
  /\ (exists msg,
        put "hosts" None new_machine
        = (Raised (VirtualMachineError msg), new_machine)).
Proof.
  apply (run_get_put_refused_unless_created remote_failing_after_boot
           new_machine "ls" "/etc/hosts" "hosts" None None).
  simpl. discriminate.
Defined.

Lemma destroy_best_effort_witness :
  destroy remote_failing_after_boot new_machine = (Returned tt, new_machine)
  /\ exists path,
       os_path_join (Some "/var/lib/libvirt/images")
         ("140231.example.com" ++ ".img") = Returned path
       /\ destroy remote_failing_after_boot booted_machine
          = (Returned tt,
             mkMachine (self booted_machine)
               (history booted_machine
                ++ (unregister_events (self booted_machine)
                    ++ teardown_events (self booted_machine)
                         "140231.example.com" path))%list).
Proof.
  split.
  - apply (proj1 (destroy_best_effort_keeps_created
                    remote_failing_after_boot)).
    simpl. discriminate.
  - apply (proj1 (proj2 (destroy_best_effort_keeps_created
                           remote_failing_after_boot))
             booted_machine "140231.example.com" "/var/lib/libvirt/images");
      reflexivity.
Defined.

(** After [create] and a [destroy] whose commands all exit 1, the state is
    still [Created], not [Destroyed], and [run] is still accepted. *)
Lemma destroy_leaves_created_counterexample :
  create remote_failing_after_boot new_machine = (Returned tt, booted_machine)
  /\ fst (destroy remote_failing_after_boot booted_machine) = Returned tt
  /\ lifecycleState
       (self (snd (destroy remote_failing_after_boot booted_machine)))
     = Created
  /\ lifecycleState
       (self (snd (destroy remote_failing_after_boot booted_machine)))
     <> Destroyed
  /\ fst (run remote_failing_after_boot "ls"
            (snd (destroy remote_failing_after_boot booted_machine)))
     = Returned (answer 1 ["error"]).
Proof.
  repeat split; try reflexivity. vm_compute. discriminate.
Qed.

(** C2 at a probe that exits 0 and prints no parenthesis: [create]
    raises [IndexError], not [VirtualMachineError], after the snap-guest
    call, the wait and the ping; the object is left not created. *)
Theorem create_unparsable_ping_raises_IndexError :
  create remote_unparsable_ping new_machine
  = (Raised IndexError,
     mkMachine example_vm
       [SshCommand
          ("snap-guest -b rhel71-base -t 140231.example.com -m 512 -c 1 "
           ++ "-n bridge=br0 -f -p /var/lib/libvirt/images")
          (Some "provisioning.example.com");
        TimeSleep 60;
        SshCommand "ping -c 1 140231.local"
          (Some "provisioning.example.com")]).
Proof. vm_compute. reflexivity. Qed.



Lemma create_twice_witness :
  create remote_failing_after_boot booted_machine
  = (Returned tt, booted_machine)
  /\ (create remote_failing_after_boot ;;; create remote_failing_after_boot)
       new_machine
     = (Returned tt, booted_machine)
  /\ exists calls,
       history booted_machine = (history new_machine ++ calls)%list
       /\ List.length (List.filter is_provisioning calls) = 1%nat.
Proof.
  apply (create_twice_provisions_once remote_failing_after_boot
           new_machine booted_machine).
  - simpl. discriminate.
  - reflexivity.
Defined.

Lemma register_contenthost_witness :
  (exists cmd,
     register_command example_settings "Org1" (Some "key") None true None
     = Some cmd
     /\ let result :=
          ssh_result remote_scan_failing (history created_machine) cmd
            (ip_addr (self created_machine)) in
        register_contenthost example_settings remote_scan_failing "Org1"
          (Some "key") None true None created_machine
        = (Returned result,
           mkMachine
             (if (return_code result =? 0)%Z
              then set_subscribed true (self created_machine)
              else self created_machine)
             (history created_machine
              ++ [SshCommand cmd (ip_addr (self created_machine))])%list))
  /\ (exists msg,
        register_contenthost example_settings remote_scan_failing "Org1"
          (Some "key") None true None new_machine
        = (Raised (VirtualMachineError msg), new_machine)).
Proof.
  split.
  - apply (proj1 (proj2 (register_contenthost_outcomes example_settings
                           remote_scan_failing created_machine "Org1"
                           (Some "key") None true None))).
    + left. discriminate.
    + reflexivity.
  - apply (proj2 (proj2 (register_contenthost_outcomes example_settings
                           remote_scan_failing new_machine "Org1"
                           (Some "key") None true None))).
    + left. discriminate.
    + simpl. discriminate.
Defined.

(** With an activation key, on a machine that was not created, no
    registration command runs and no result is returned. *)
Lemma register_contenthost_not_created_counterexample :
  register_contenthost example_settings remote_scan_failing "Org1"
    (Some "key") None true None new_machine
  = (Raised (VirtualMachineError
               ("The virtual machine should be created before running any ssh "
                ++ "command")),
     new_machine)
  /\ ~ (exists result m',
          register_contenthost example_settings remote_scan_failing "Org1"
            (Some "key") None true None new_machine
          = (Returned result, m')).
Proof.
  split; [reflexivity|].
  intros (result & m' & H). vm_compute in H. discriminate H.
Qed.

Lemma execute_foreman_scap_client_witness :
  execute_foreman_scap_client remote_scan_failing (Some "7") created_machine
  = (Raised (UnboundLocalError "result"),
     mkMachine created_vm
       [SshCommand "foreman_scap_client 7" (Some "192.0.2.5")])
  /\ execute_foreman_scap_client remote_scan_failing None created_machine
     = (Returned tt,
        mkMachine created_vm
          [SshCommand policy_lookup_command (Some "192.0.2.5");
           SshCommand "foreman_scap_client 7" (Some "192.0.2.5")]).
Proof.
  split.
  - apply (proj1 (execute_foreman_scap_client_checks_wrong_result
                    remote_scan_failing created_machine eq_refl) "7").
  - apply (proj2 (execute_foreman_scap_client_checks_wrong_result
                    remote_scan_failing created_machine eq_refl) "7" []).
    + reflexivity.
    + reflexivity.
    + simpl. discriminate.
Defined.

(** C8 at a lookup that exits 1: the lookup is the command whose result
    [execute_foreman_scap_client] checks, yet the scan that follows it in
    the sequence is still sent before the error is raised. *)
Theorem execute_foreman_scap_client_runs_past_failed_lookup :
  execute_foreman_scap_client remote_lookup_failing None created_machine
  = (Raised (VirtualMachineError "Failed to execute foreman_scap_client run."),
     mkMachine created_vm
       [SshCommand policy_lookup_command (Some "192.0.2.5");
        SshCommand "foreman_scap_client 7" (Some "192.0.2.5")]).
Proof. vm_compute. reflexivity. Qed.

Lemma invariant_created_vm : invariant created_vm.
Proof.
  split.
  - split; intros _; [reflexivity|discriminate].
  - intros _. reflexivity.
Defined.

Lemma operations_preserve_invariant_witness :
  invariant
    (self (snd (perform example_settings remote_failing_after_boot
                  "rhel6" "rhel7"
                  (RegisterContenthost "Org1" (Some "key") None true None)
                  created_machine)))
  /\ invariant
       (self (snd (perform example_settings remote_failing_after_boot
                     "rhel6" "rhel7" Create new_machine))).
Proof.
  split.
  - apply (proj1 (operations_preserve_invariant example_settings
                    remote_failing_after_boot "rhel6" "rhel7")).
    exact invariant_created_vm.
  - apply (proj2 (operations_preserve_invariant example_settings
                    remote_failing_after_boot "rhel6" "rhel7")).
    apply reachable_perform.
    apply (reachable_init example_settings remote_failing_after_boot
             "rhel6" "rhel7" 1 512 None None None None None None None 140231
             example_vm []).
    reflexivity.
Defined.


(** * Further properties of [robottelo/vm.py] *)

(** ** Strings: pieces of a split, first occurrence *)

Lemma split_once_without_separator (c : ascii) (s : string) :
  contains_char c s = false -> split_once c s = [s].
Proof.
  induction s as [|d rest IH]; cbn; [reflexivity|].
  destruct (Ascii.eqb d c); cbn; [discriminate|].
  intros H. rewrite (IH H). reflexivity.
Qed.

Lemma split_once_at_first (c : ascii) (a r : string) :
  contains_char c a = false ->
  split_once c (a ++ String c r) = [a; r].
Proof.
  induction a as [|d rest IH]; cbn.
  - intros _. rewrite Ascii.eqb_refl. reflexivity.
  - destruct (Ascii.eqb d c); cbn; [discriminate|].
    intros H. rewrite (IH H). reflexivity.
Qed.

Lemma first_occurrence (c : ascii) (s : string) :
  contains_char c s = true ->
  exists a r, s = a ++ String c r /\ contains_char c a = false.
Proof.
  induction s as [|d rest IH]; cbn; [discriminate|].
  destruct (Ascii.eqb d c) eqn:Hd; cbn.
  - intros _. apply Ascii.eqb_eq in Hd. subst d.
    exists "", rest. split; reflexivity.
  - intros H. destruct (IH H) as (a & r & -> & Ha).
    exists (String d a), r. split; [reflexivity|].
    cbn. rewrite Hd. exact Ha.
Qed.

Lemma split_pieces_without_separator (c : ascii) (s : string) :
  Forall (fun piece => contains_char c piece = false) (split c s).
Proof.
  induction s as [|d rest IH]; cbn.
  - constructor; [reflexivity|constructor].
  - destruct (Ascii.eqb d c) eqn:Hd.
    + constructor; [reflexivity|exact IH].
    + destruct (split c rest) as [|piece pieces].
      * constructor; [cbn; rewrite Hd; reflexivity|constructor].
      * inversion IH; subst. constructor; [|assumption].
        cbn. rewrite Hd. assumption.
Qed.

Lemma split_pieces_keep_free (c d : ascii) (s : string) :
  contains_char c s = false ->
  Forall (fun piece => contains_char c piece = false) (split d s).
Proof.
  induction s as [|e rest IH]; cbn.
  - intros _. constructor; [reflexivity|constructor].
  - destruct (Ascii.eqb e c) eqn:Hec; cbn; [discriminate|].
    intros H. specialize (IH H).
    destruct (Ascii.eqb e d).
    + constructor; [reflexivity|exact IH].
    + destruct (split d rest) as [|piece pieces].
      * constructor; [cbn; rewrite Hec; reflexivity|constructor].
      * inversion IH; subst. constructor; [|assumption].
        cbn. rewrite Hec. assumption.
Qed.

Lemma split_at_first (c : ascii) (a r : string) :
  contains_char c a = false ->
  split c (a ++ String c r) = a :: split c r.
Proof.
  induction a as [|d rest IH]; cbn.
  - intros _. rewrite Ascii.eqb_refl. reflexivity.
  - destruct (Ascii.eqb d c); cbn; [discriminate|].
    intros H. rewrite (IH H). reflexivity.
Qed.

(** ** The derived names *)

(** X1: without an explicit domain, [domain] is what follows the first
    dot of the provisioning server, and it raises [VirtualMachineError]
    when that name has no dot; an explicit domain is returned as it is. *)
Theorem domain_derived_from_provisioning_server (vm : VirtualMachine) :
  (forall d, _domain vm = Some d -> domain vm = Returned d)
  /\ (_domain vm = None ->
      contains_char "." (provisioning_server vm) = false ->
      exists msg, domain vm = Raised (VirtualMachineError msg))
  /\ (forall label rest,
        _domain vm = None ->
        contains_char "." label = false ->
        provisioning_server vm = label ++ "." ++ rest ->
        domain vm = Returned rest).
Proof.
  unfold domain. split; [|split].
  - intros d ->. reflexivity.
  - intros -> H. rewrite (split_once_without_separator _ _ H).
    eexists. reflexivity.
  - intros label rest -> Hl ->.
    change (label ++ "." ++ rest) with (label ++ String "." rest).
    rewrite (split_once_at_first _ _ _ Hl). reflexivity.
Qed.

Lemma append_nonempty_right (a b : string) : b <> "" -> a ++ b <> "".
Proof.
  intros Hb. destruct a; cbn; [exact Hb|discriminate].
Qed.

(** X2: the property [hostname] never yields the empty string; an empty
    explicit hostname counts as none, and the name is then built from the
    image tag and the domain. *)
Theorem hostname_never_empty (vm : VirtualMachine) (h : string) :
  hostname vm = Returned h ->
  h <> ""
  /\ (truthy (_hostname vm) = false ->
      exists d, domain vm = Returned d /\ h = _target_image vm ++ "." ++ d
                /\ target_image vm = Returned h).
Proof.
  unfold target_image, hostname.
  destruct (_hostname vm) as [s|] eqn:Hs; cbn [truthy].
  - destruct (s =? "") eqn:He; cbn [negb].
    + destruct (domain vm) as [d|e]; [|discriminate].
      intros H. inversion H; subst; clear H. split.
      * apply append_nonempty_right. discriminate.
      * intros _. exists d. repeat split.
    + intros H. inversion H; subst; clear H. split; [|discriminate].
      intros ->. discriminate.
  - destruct (domain vm) as [d|e]; [|discriminate].
    intros H. inversion H; subst; clear H. split.
    + apply append_nonempty_right. discriminate.
    + intros _. exists d. repeat split.
Qed.

(** ** The address parsed from the output of ping *)

(** X3: [parse_address] returns exactly when the output has an opening
    parenthesis, a closing one is not needed; and the address it returns
    has no parenthesis in it. *)
Theorem parse_address_returns_iff_open_parenthesis (output : string) :
  ((exists address, parse_address output = Returned address)
   <-> contains_char "(" output = true)
  /\ (forall address,
        parse_address output = Returned address ->
        contains_char "(" address = false
        /\ contains_char ")" address = false).
Proof.
  assert (Hyes : contains_char "(" output = true ->
                 exists address,
                   parse_address output = Returned address
                   /\ contains_char "(" address = false
                   /\ contains_char ")" address = false).
  { intros H. destruct (first_occurrence _ _ H) as (a & r & -> & Ha).
    unfold parse_address. rewrite (split_at_first _ _ _ Ha).
    pose proof (split_pieces_without_separator "(" r) as Hfree.
    destruct (split "(" r) as [|p ps] eqn:Hr;
      [exfalso; eapply split_not_nil, Hr|].
    cbn [subscript nth_error].
    inversion Hfree as [|? ? Hp _]; subst.
    pose proof (split_pieces_keep_free "(" ")" p Hp) as Hkeep.
    pose proof (split_pieces_without_separator ")" p) as Hclose.
    destruct (split ")" p) as [|q qs] eqn:Hq;
      [exfalso; eapply split_not_nil, Hq|].
    exists q. cbn. inversion Hkeep; inversion Hclose; subst. auto. }
  split; [split|].
  - intros [address H].
    destruct (contains_char "(" output) eqn:Hc; [reflexivity|].
    rewrite (parse_address_without_parenthesis output Hc) in H.
    discriminate.
  - intros H. destruct (Hyes H) as (address & Hp & _). eauto.
  - intros address H.
    destruct (contains_char "(" output) eqn:Hc.
    + destruct (Hyes eq_refl) as (address' & Hp & Hfree).
      rewrite Hp in H. inversion H; subst. exact Hfree.
    + rewrite (parse_address_without_parenthesis output Hc) in H.
      discriminate.
Qed.

Section Further.

Variable settings : Settings.
Variable remote : Remote.
Variable DISTRO_RHEL6 DISTRO_RHEL7 : string.

(** ** How [create] fails *)

(** X5: [create] evaluates the property [domain] while it formats the
    command, needed or not; when that raises, with or without an explicit
    hostname, [create] raises the same error before any remote call. *)
Theorem create_raises_before_any_call_without_domain
    (m : Machine) (e : PyException) :
  _created (self m) = false ->
  domain (self m) = Raised e ->
  create remote m = (Raised e, m).
Proof.
  intros Hc Hd. unfold create, bind, read, eval. cbn [self]. rewrite Hc.
  unfold target_image, hostname.
  destruct (truthy (_hostname (self m))); rewrite Hd; reflexivity.
Qed.

(** X6: a snap-guest call that exits non-zero makes [create] raise with
    the captured error text after that one call, without waiting and
    without ping; a ping that exits non-zero makes it raise after the
    three calls; in both cases no field of the object is written. *)
Theorem create_failure_modes (m : Machine) (name host dom : string) :
  let server := Some (provisioning_server (self m)) in
  let command := String.concat " " (command_args (self m) name host dom) in
  let snap := ssh_result remote (history m) command server in
  let booted :=
    (history m ++ [SshCommand command server] ++ [TimeSleep 60])%list in
  let probe := ssh_result remote booted (ping_command (self m)) server in
  _created (self m) = false ->
  target_image (self m) = Returned name ->
  hostname (self m) = Returned host ->
  domain (self m) = Returned dom ->
  (return_code snap <> 0%Z ->
   create remote m
   = (Raised (VirtualMachineError
                ("Failed to run snap-guest: " ++ stderr snap)),
      mkMachine (self m) (history m ++ [SshCommand command server])%list))
  /\ (return_code snap = 0%Z ->
      return_code probe <> 0%Z ->
      create remote m
      = (Raised (VirtualMachineError
                   "Failed to fetch virtual machine IP address information"),
         mkMachine (self m)
           (history m
            ++ [SshCommand command server; TimeSleep 60;
                SshCommand (ping_command (self m)) server])%list)).
Proof.
  intros server command snap booted probe Hc Hn Hh Hd.
  assert (Hstart :
            create remote m
            = (if negb (return_code snap =? 0)%Z
               then raise (VirtualMachineError
                             ("Failed to run snap-guest: " ++ stderr snap))
               else
                 time_sleep 60 ;;;
                 result <- ssh_command remote (ping_command (self m)) server ;;
                 if negb (return_code result =? 0)%Z
                 then raise (VirtualMachineError
                               "Failed to fetch virtual machine IP address information")
                 else
                   address <- eval (parse_address
                                      (String.concat "" (stdout result))) ;;
                   assign (set_ip_addr (Some address)) ;;;
                   assign (set_created true))
                (mkMachine (self m)
                   (history m ++ [SshCommand command server])%list)).
  { unfold create.
    unfold bind at 1. unfold read at 1. cbn [self]. rewrite Hc.
    unfold bind at 1. unfold read at 1.
    unfold bind at 1. unfold eval at 1. rewrite Hn.
    unfold bind at 1. unfold eval at 1. rewrite Hh.
    unfold bind at 1. unfold eval at 1. rewrite Hd.
    unfold bind at 1. unfold ssh_command at 1. reflexivity. }
  rewrite Hstart. split.
  - intros Hrc. apply Z.eqb_neq in Hrc. rewrite Hrc. reflexivity.
  - intros Hsnap Hping. rewrite Hsnap. cbn [Z.eqb negb].
    unfold bind at 1. unfold time_sleep, emit. cbn [self history].
    unfold bind at 1. unfold ssh_command at 1. cbn [self history].
    rewrite <- app_assoc. fold booted. fold probe.
    apply Z.eqb_neq in Hping. rewrite Hping. cbn [negb].
    unfold raise, booted. repeat rewrite <- app_assoc. reflexivity.
Qed.

Lemma create_raised_keeps_self (m m1 : Machine) (e : PyException) :
  create remote m = (Raised e, m1) -> self m1 = self m.
Proof.
  destruct (_created (self m)) eqn:Hc.
  - rewrite (create_already_created remote m Hc). discriminate.
  - unfold create.
    unfold bind at 1. unfold read at 1. cbn [self]. rewrite Hc.
    unfold bind at 1. unfold read at 1.
    unfold bind at 1. unfold eval at 1.
    destruct (target_image (self m));
      [|intros H; inversion H; reflexivity].
    unfold bind at 1. unfold eval at 1.
    destruct (hostname (self m)); [|intros H; inversion H; reflexivity].
    unfold bind at 1. unfold eval at 1.
    destruct (domain (self m)); [|intros H; inversion H; reflexivity].
    unfold bind at 1. unfold ssh_command at 1. cbn [self history].
    destruct (negb _); [intros H; inversion H; reflexivity|].
    unfold bind at 1. unfold time_sleep, emit. cbn [self history].
    unfold bind at 1. unfold ssh_command at 1. cbn [self history].
    destruct (negb _); [intros H; inversion H; reflexivity|].
    unfold bind at 1. unfold eval at 1.
    destruct (parse_address _); [|intros H; inversion H; reflexivity].
    unfold bind, assign. cbn. discriminate.
Qed.

(** X7: a [create] that raised has written nothing to the object, so the
    machine still counts as not created: a following [destroy] makes no
    remote call, and a [with] statement passes the error on without
    running its block or any teardown, whatever [create] had already
    started on the provisioning server. *)
Theorem failed_create_is_never_torn_down
    {A : Type} (body : M A) (m m1 : Machine) (e : PyException) :
  create remote m = (Raised e, m1) ->
  self m1 = self m
  /\ _created (self m1) = false
  /\ destroy remote m1 = (Returned tt, m1)
  /\ with_statement remote body m = (Raised e, m1).
Proof.
  intros Hcreate.
  pose proof (create_raised_keeps_self m m1 e Hcreate) as Hself.
  assert (Hc : _created (self m1) = false).
  { rewrite Hself. destruct (_created (self m)) eqn:Hc; [|reflexivity].
    rewrite (create_already_created remote m Hc) in Hcreate.
    discriminate. }
  repeat split; try assumption.
  - apply destroy_not_created, Hc.
  - unfold with_statement, __enter__, bind. rewrite Hcreate. reflexivity.
Qed.

(** ** How [destroy] composes *)

(** X8: [destroy] is not idempotent on a created machine: as the created
    flag stays up, a second call sends the unregistration and the three
    teardown commands once more. *)
Theorem destroy_twice_repeats_teardown
    (m : Machine) (name dir : string) :
  _created (self m) = true ->
  target_image (self m) = Returned name ->
  image_dir (self m) = Some dir ->
  exists path,
    os_path_join (Some dir) (name ++ ".img") = Returned path
    /\ let calls :=
         (unregister_events (self m)
          ++ teardown_events (self m) name path)%list in
       (destroy remote ;;; destroy remote) m
       = (Returned tt,
          mkMachine (self m) (history m ++ calls ++ calls)%list).
Proof.
  intros Hc Hn Hd.
  destruct (os_path_join_some dir (name ++ ".img")) as [path Hp].
  exists path. split; [exact Hp|]. cbv zeta.
  assert (Hdes : forall h,
             destroy remote (mkMachine (self m) h)
             = (Returned tt,
                mkMachine (self m)
                  (h ++ (unregister_events (self m)
                         ++ teardown_events (self m) name path))%list)).
  { intros h. apply (destroy_created remote (mkMachine (self m) h) name path).
    - exact Hc.
    - exact Hn.
    - cbn [self]. rewrite Hd. exact Hp. }
  unfold bind.
  replace m with (mkMachine (self m) (history m)) at 1
    by (destruct m; reflexivity).
  rewrite Hdes, Hdes. rewrite <- app_assoc. reflexivity.
Qed.

(** X9: on a created machine without image directory, [destroy] sends the
    unregistration (when subscribed), the stop and the undefine commands
    and then raises while it builds the path of the image: the command
    that removes the image is never sent. *)
Theorem destroy_without_image_dir_raises_before_rm
    (m : Machine) (name : string) :
  _created (self m) = true ->
  target_image (self m) = Returned name ->
  image_dir (self m) = None ->
  exists e,
    destroy remote m
    = (Raised e,
       mkMachine (self m)
         (history m
          ++ unregister_events (self m)
          ++ [SshCommand ("virsh destroy " ++ name)
                (Some (provisioning_server (self m)));
              SshCommand ("virsh undefine " ++ name)
                (Some (provisioning_server (self m)))])%list).
Proof.
  intros Hc Hn Hd. exists TypeError.
  unfold destroy, unregister, unregister_events.
  unfold bind at 1. unfold read at 1. cbn [self]. rewrite Hc. cbn [negb].
  unfold bind at 1. unfold read at 1. cbn [self].
  destruct (_subscribed (self m)).
  - unfold bind at 1. unfold bind at 1. rewrite (run_created remote _ m Hc).
    unfold ret at 1, bind, read, eval, ssh_command, ret. cbn [self history].
    rewrite Hn, Hd. cbn [self history os_path_join].
    repeat rewrite <- app_assoc. reflexivity.
  - unfold bind, read, eval, ssh_command, ret. cbn [self history].
    rewrite Hn, Hd. cbn [self history os_path_join].
    repeat rewrite <- app_assoc. reflexivity.
Qed.

(** X10: [unregister] sends its command and leaves the subscribed flag
    up, so a [destroy] after it unregisters a second time before the
    teardown. *)
Theorem unregister_keeps_subscribed_flag
    (m : Machine) (name dir : string) :
  _created (self m) = true ->
  _subscribed (self m) = true ->
  target_image (self m) = Returned name ->
  image_dir (self m) = Some dir ->
  let call := SshCommand "subscription-manager unregister" (ip_addr (self m)) in
  unregister remote m
  = (Returned (ssh_result remote (history m)
                 "subscription-manager unregister" (ip_addr (self m))),
     mkMachine (self m) (history m ++ [call])%list)
  /\ exists path,
       os_path_join (Some dir) (name ++ ".img") = Returned path
       /\ (unregister remote ;;; destroy remote) m
          = (Returned tt,
             mkMachine (self m)
               (history m
                ++ [call; call] ++ teardown_events (self m) name path)%list).
Proof.
  intros Hc Hs Hn Hd call.
  assert (Hun : unregister remote m
                = (Returned (ssh_result remote (history m)
                               "subscription-manager unregister"
                               (ip_addr (self m))),
                   mkMachine (self m) (history m ++ [call])%list)).
  { unfold unregister. apply run_created, Hc. }
  split; [exact Hun|].
  destruct (os_path_join_some dir (name ++ ".img")) as [path Hp].
  exists path. split; [exact Hp|].
  unfold bind. rewrite Hun.
  rewrite (destroy_created remote _ name path); cbn [self history].
  - unfold unregister_events. rewrite Hs. fold call.
    repeat rewrite <- app_assoc. reflexivity.
  - exact Hc.
  - exact Hn.
  - rewrite Hd. exact Hp.
Qed.

(** X11: [create] and [destroy] agree on the name of the machine: after a
    [create] that returned, [destroy] stops and undefines the name that
    was passed to snap-guest with [-t] and removes the image of that name
    from the image directory (on a machine that is not subscribed, as a
    new one is). *)
Theorem create_then_destroy_use_one_name (m m1 : Machine) (dir : string) :
  _created (self m) = false ->
  _subscribed (self m) = false ->
  create remote m = (Returned tt, m1) ->
  image_dir (self m) = Some dir ->
  exists name host dom path,
    let server := Some (provisioning_server (self m)) in
    nth_error (command_args (self m) name host dom) 2 = Some ("-t " ++ name)
    /\ os_path_join (Some dir) (name ++ ".img") = Returned path
    /\ (create remote ;;; destroy remote) m
       = (Returned tt,
          mkMachine (self m1)
            (history m
             ++ [SshCommand
                   (String.concat " " (command_args (self m) name host dom))
                   server;
                 TimeSleep 60;
                 SshCommand (ping_command (self m)) server;
                 SshCommand ("virsh destroy " ++ name) server;
                 SshCommand ("virsh undefine " ++ name) server;
                 SshCommand ("rm " ++ path) server])%list).
Proof.
  intros Hc Hs Hcreate Hd.
  destruct (create_returns remote m m1 Hc Hcreate)
    as (name & host & dom & address & Hn & _ & _ & _ & _ & _ & Hm1).
  destruct (os_path_join_some dir (name ++ ".img")) as [path Hp].
  exists name, host, dom, path. cbv zeta.
  split; [reflexivity|]. split; [exact Hp|].
  unfold bind. rewrite Hcreate.
  rewrite (destroy_created remote m1 name path).
  - rewrite Hm1. cbn [self history]. unfold unregister_events, teardown_events.
    cbn. rewrite Hs. repeat rewrite <- app_assoc. reflexivity.
  - rewrite Hm1. reflexivity.
  - rewrite Hm1. exact Hn.
  - rewrite Hm1. cbn. rewrite Hd. exact Hp.
Qed.

(** ** What the operations write, and when they refuse *)

Definition same_configuration (vm vm' : VirtualMachine) : Prop :=
  cpu vm' = cpu vm /\ ram vm' = ram vm /\ distro vm' = distro vm
  /\ provisioning_server vm' = provisioning_server vm
  /\ image_dir vm' = image_dir vm /\ _hostname vm' = _hostname vm
  /\ _domain vm' = _domain vm /\ _target_image vm' = _target_image vm.

Lemma perform_writes_from (op : Operation) (m : Machine) :
  let vm' := self (snd (perform settings remote DISTRO_RHEL6 DISTRO_RHEL7
                          op m)) in
  vm' = self m
  \/ (_created (self m) = false /\ becomes_created (self m) vm')
  \/ becomes_subscribed (self m) vm'.
Proof.
  cbv zeta.
  destruct op; cbn [perform]; rewrite ?snd_discard;
    try (left;
         first [ apply keeps_destroy | apply keeps_run | apply keeps_get
               | apply keeps_put | apply keeps_download_install_rpm
               | apply keeps_enable_repo | apply keeps_install_katello_agent
               | apply keeps_install_katello_ca
               | apply keeps_remove_katello_ca
               | apply keeps_configure_rhel_repo
               | apply keeps_configure_puppet
               | apply keeps_execute_foreman_scap_client ]).
  - destruct (create_writes remote m) as [H|H]; auto.
  - destruct (register_contenthost_writes settings remote m _ org
                activation_key lce force releasever eq_refl); auto.
  - destruct (configure_rhai_client_writes settings remote DISTRO_RHEL6
                DISTRO_RHEL7 m _ activation_key org rhel_distro eq_refl);
      auto.
  - unfold __enter__, bind, read.
    destruct (create_writes remote m) as [H|H];
      destruct (create remote m) as [[[]|e] m1]; cbn [snd self] in *; auto.
Qed.

(** X12: no operation changes the configuration of a machine (cpu, ram,
    distro, provisioning server, image directory, hostname, domain, image
    tag); none lowers the created or the subscribed flag; and once the
    machine is created its address is never replaced. *)
Theorem operations_only_raise_flags (op : Operation) (m : Machine) :
  let vm' := self (snd (perform settings remote DISTRO_RHEL6 DISTRO_RHEL7
                          op m)) in
  same_configuration (self m) vm'
  /\ (_created (self m) = true ->
      _created vm' = true /\ ip_addr vm' = ip_addr (self m))
  /\ (_subscribed (self m) = true -> _subscribed vm' = true).
Proof.
  cbv zeta.
  destruct (perform_writes_from op m) as [H|[[Hc [address H]]|[Hc H]]];
    rewrite H; unfold same_configuration; cbn.
  - repeat split; auto.
  - split; [repeat split|]. split; [|auto].
    intros Ht. rewrite Hc in Ht. discriminate.
  - repeat split; auto.
Qed.

(** The operations whose first step is [run], [get] or [put], and
    [register_contenthost], whose only other step is to reject its
    arguments. *)
Definition needs_created (op : Operation) : bool :=
  match op with
  | Run _ | Get _ _ | Put _ _ | Unregister
  | RegisterContenthost _ _ _ _ _
  | DownloadInstallRpm _ _ | EnableRepo _ | InstallKatelloAgent
  | ConfigureRhelRepo _ | ConfigurePuppet _
  | ExecuteForemanScapClient _ => true
  | Create | Destroy | InstallKatelloCaOp | RemoveKatelloCaOp
  | ConfigureRhaiClient _ _ _ | Enter | Exit => false
  end.

(** X13: on a machine that is not created, every operation that works
    through [run], [get] or [put] raises [VirtualMachineError] and leaves
    the machine and the record of remote calls as they were; this covers
    each helper built on [run], whatever its arguments. *)
Theorem run_based_operations_refuse_uncreated (op : Operation) (m : Machine) :
  needs_created op = true ->
  _created (self m) = false ->
  exists msg,
    perform settings remote DISTRO_RHEL6 DISTRO_RHEL7 op m
    = (Raised (VirtualMachineError msg), m).
Proof.
  intros Hop Hc.
  destruct op; try discriminate Hop; cbn [perform];
    unfold discard, unregister, download_install_rpm, enable_repo,
      install_katello_agent, configure_puppet, configure_rhel_repo,
      execute_foreman_scap_client, register_contenthost, get, put;
    try match goal with
        | |- context [register_command ?s ?o ?k ?l ?f ?r] =>
            destruct (register_command s o k l f r)
        | |- context [match ?p with Some _ => _ | None => _ end] =>
            destruct p
        end;
    eexists; unfold bind, read, ret, raise; cbn [self];
    rewrite ?Hc; cbn [negb];
    try (rewrite run_not_created by exact Hc);
    reflexivity.
Qed.

(** ** The Access Insights helper *)

Lemma install_katello_ca_outcome (m : Machine) :
  install_katello_ca remote m
  = (if install_katello_ca_passes remote (history m) (ip_addr (self m))
     then Returned tt
     else Raised (VirtualMachineError
                    "Failed to download and install the katello-ca rpm"),
     mkMachine (self m)
       (history m ++ [InstallKatelloCa (ip_addr (self m))])%list).
Proof.
  unfold install_katello_ca, bind, read, except_AssertionError,
    helpers_install_katello_ca.
  destruct (install_katello_ca_passes _ _ _); reflexivity.
Qed.

(** X14: [configure_rhai_client] does not test the created flag before
    its first step: on a machine that is not created it still calls the
    katello-ca helper, with the address the object holds (none, on a new
    machine), and only then raises [VirtualMachineError]. *)
Theorem configure_rhai_client_uncreated_still_calls_helper
    (m : Machine) (activation_key : option string) (org rhel_distro : string) :
  _created (self m) = false ->
  exists msg,
    configure_rhai_client settings remote DISTRO_RHEL6 DISTRO_RHEL7
      activation_key org rhel_distro m
    = (Raised (VirtualMachineError msg),
       mkMachine (self m)
         (history m ++ [InstallKatelloCa (ip_addr (self m))])%list).
Proof.
  intros Hc. unfold configure_rhai_client.
  unfold bind at 1. rewrite install_katello_ca_outcome.
  destruct (install_katello_ca_passes _ _ _); [|eexists; reflexivity].
  unfold bind at 1. unfold register_contenthost.
  destruct (register_command settings org activation_key None true None).
  - eexists. unfold bind at 1.
    rewrite run_not_created by exact Hc. reflexivity.
  - eexists. reflexivity.
Qed.

(** The command with which the helper registers the machine. *)
Definition rhai_registration (org key : string) : string :=
  (("subscription-manager register --org " ++ org)
   ++ (" --activationkey " ++ key)) ++ " --force".

(** The machine after the first two steps of the helper, on a created
    machine and with a helper that passes. *)
Definition rhai_registered (m : Machine) (org key : string) : Machine :=
  let ip := ip_addr (self m) in
  let installed := (history m ++ [InstallKatelloCa ip])%list in
  let cmd := rhai_registration org key in
  mkMachine
    (if (return_code (ssh_result remote installed cmd ip) =? 0)%Z
     then set_subscribed true (self m) else self m)
    (installed ++ [SshCommand cmd ip])%list.

Lemma rhai_registered_created (m : Machine) (org key : string) :
  _created (self m) = true ->
  _created (self (rhai_registered m org key)) = true
  /\ ip_addr (self (rhai_registered m org key)) = ip_addr (self m).
Proof.
  intros Hc. unfold rhai_registered. cbn.
  destruct (return_code _ =? 0)%Z; cbn; auto.
Qed.

(** X15: when [rhel_distro] is neither of the two distro constants, the
    helper has already called the katello-ca helper and sent the
    registration command when it raises on reading the local
    [insights_repo], which no branch has bound. *)
Theorem configure_rhai_client_unknown_distro
    (m : Machine) (org key rhel_distro : string) :
  _created (self m) = true ->
  install_katello_ca_passes remote (history m) (ip_addr (self m)) = true ->
  rhel_distro <> DISTRO_RHEL6 ->
  rhel_distro <> DISTRO_RHEL7 ->
  configure_rhai_client settings remote DISTRO_RHEL6 DISTRO_RHEL7
    (Some key) org rhel_distro m
  = (Raised (UnboundLocalError "insights_repo"), rhai_registered m org key).
Proof.
  intros Hc Hp H6 H7.
  apply String.eqb_neq in H6. apply String.eqb_neq in H7.
  unfold configure_rhai_client.
  unfold bind at 1. rewrite install_katello_ca_outcome, Hp.
  unfold bind at 1. unfold register_contenthost, register_command.
  unfold bind at 1. rewrite run_created by exact Hc. cbn [self history].
  rewrite H6, H7. unfold rhai_registered, rhai_registration.
  destruct (return_code _ =? 0)%Z; reflexivity.
Qed.

(** The repositories the helper picks for [rhel_distro]: the second
    comparison has the last word. *)
Definition rhai_rhel_repo (rhel_distro : string) : option string :=
  if rhel_distro =? DISTRO_RHEL7 then rhel7_repo settings
  else rhel6_repo settings.

Definition rhai_insights_repo (rhel_distro : string) : option string :=
  if rhel_distro =? DISTRO_RHEL7 then rhai_insights_client_el7repo settings
  else rhai_insights_client_el6repo settings.

(** X16: when the configuration lacks the RHEL repository or the insights
    repository of the distro, the helper raises [VirtualMachineError]
    after the katello-ca helper and the registration, and before it sends
    any of its own commands. *)
Theorem configure_rhai_client_missing_repository
    (m : Machine) (org key rhel_distro : string) :
  _created (self m) = true ->
  install_katello_ca_passes remote (history m) (ip_addr (self m)) = true ->
  rhel_distro = DISTRO_RHEL6 \/ rhel_distro = DISTRO_RHEL7 ->
  rhai_rhel_repo rhel_distro = None \/ rhai_insights_repo rhel_distro = None ->
  exists msg,
    configure_rhai_client settings remote DISTRO_RHEL6 DISTRO_RHEL7
      (Some key) org rhel_distro m
    = (Raised (VirtualMachineError msg), rhai_registered m org key).
Proof.
  intros Hc Hp Hdistro Hmissing.
  unfold configure_rhai_client.
  unfold bind at 1. rewrite install_katello_ca_outcome, Hp.
  unfold bind at 1. unfold register_contenthost, register_command.
  unfold bind at 1. rewrite run_created by exact Hc. cbn [self history].
  unfold rhai_registered, rhai_registration.
  unfold rhai_rhel_repo, rhai_insights_repo in Hmissing.
  destruct (rhel_distro =? DISTRO_RHEL7) eqn:H7.
  - destruct (rhel_distro =? DISTRO_RHEL6);
      destruct (rhel7_repo settings), (rhai_insights_client_el7repo settings);
      try (destruct Hmissing; discriminate);
      destruct (return_code _ =? 0)%Z; eexists; reflexivity.
  - destruct Hdistro as [H6|H7']; [|apply String.eqb_eq in H7'; congruence].
    apply String.eqb_eq in H6. rewrite H6.
    destruct (rhel6_repo settings), (rhai_insights_client_el6repo settings);
      try (destruct Hmissing; discriminate);
      destruct (return_code _ =? 0)%Z; eexists; reflexivity.
Qed.

(** X17: with both repositories configured, the helper returns exactly
    when its three checked commands (install, query, register with
    Insights) exit 0; the exit codes of the registration with the content
    host and of the two downloads are not looked at.  When it returns it
    has sent, after the katello-ca helper and the registration, the two
    downloads and the three checked commands, in this order. *)
Theorem configure_rhai_client_returns_iff_checks_pass
    (m : Machine) (org key rhel_distro rhel insights : string) :
  let ip := ip_addr (self m) in
  let m2 := rhai_registered m org key in
  let install_cmd := "yum install -y redhat-access-insights" in
  let query_cmd := "rpm -qi redhat-access-insights" in
  let register_cmd := "redhat-access-insights --register" in
  let fetched :=
    (history m2
     ++ [SshCommand ("wget -O /etc/yum.repos.d/rhel.repo " ++ rhel) ip;
         SshCommand ("wget -O /etc/yum.repos.d/insights.repo " ++ insights)
           ip])%list in
  let install := ssh_result remote fetched install_cmd ip in
  let query :=
    ssh_result remote (fetched ++ [SshCommand install_cmd ip])%list
      query_cmd ip in
  let registration :=
    ssh_result remote
      (fetched ++ [SshCommand install_cmd ip; SshCommand query_cmd ip])%list
      register_cmd ip in
  let outcome :=
    configure_rhai_client settings remote DISTRO_RHEL6 DISTRO_RHEL7
      (Some key) org rhel_distro m in
  _created (self m) = true ->
  install_katello_ca_passes remote (history m) (ip_addr (self m)) = true ->
  rhel_distro = DISTRO_RHEL6 \/ rhel_distro = DISTRO_RHEL7 ->
  rhai_rhel_repo rhel_distro = Some rhel ->
  rhai_insights_repo rhel_distro = Some insights ->
  (fst outcome = Returned tt
   <-> return_code install = 0%Z /\ return_code query = 0%Z
       /\ return_code registration = 0%Z)
  /\ (fst outcome = Returned tt ->
      snd outcome
      = mkMachine (self m2)
          (fetched
           ++ [SshCommand install_cmd ip; SshCommand query_cmd ip;
               SshCommand register_cmd ip])%list).
Proof.
  intros ip m2 install_cmd query_cmd register_cmd fetched install query
    registration outcome Hc Hp Hdistro Hrhel Hins.
  destruct (rhai_registered_created m org key Hc) as [Hc2 Hip].
  fold m2 in Hc2, Hip.
  assert (Hout :
            outcome
            = (if negb (return_code install =? 0)%Z
               then Raised (VirtualMachineError
                              "Unable to install redhat-access-insights package")
               else if negb (return_code query =? 0)%Z
               then Raised (VirtualMachineError
                              "Unable to install redhat-access-insights package")
               else if negb (return_code registration =? 0)%Z
               then Raised (VirtualMachineError
                              ("Unable to register client to Access Insights through "
                               ++ "Satellite"))
               else Returned tt,
               mkMachine (self m2)
                 (if negb (return_code install =? 0)%Z
                  then (fetched ++ [SshCommand install_cmd ip])%list
                  else if negb (return_code query =? 0)%Z
                  then (fetched ++ [SshCommand install_cmd ip;
                                    SshCommand query_cmd ip])%list
                  else (fetched ++ [SshCommand install_cmd ip;
                                    SshCommand query_cmd ip;
                                    SshCommand register_cmd ip])%list))).
  { unfold outcome, configure_rhai_client.
    unfold bind at 1. rewrite install_katello_ca_outcome, Hp.
    unfold bind at 1. unfold register_contenthost, register_command.
    unfold bind at 1. rewrite run_created by exact Hc. cbn [self history].
    assert (Hrepos :
              (if rhel_distro =? DISTRO_RHEL7
               then (Some (rhel7_repo settings),
                     Some (rhai_insights_client_el7repo settings))
               else if rhel_distro =? DISTRO_RHEL6
               then (Some (rhel6_repo settings),
                     Some (rhai_insights_client_el6repo settings))
               else (None, None))
              = (Some (Some rhel), Some (Some insights))).
    { unfold rhai_rhel_repo, rhai_insights_repo in Hrhel, Hins.
      destruct (rhel_distro =? DISTRO_RHEL7) eqn:H7.
      - rewrite Hrhel, Hins. reflexivity.
      - destruct Hdistro as [H6|H7'];
          [|apply String.eqb_eq in H7'; congruence].
        apply String.eqb_eq in H6. rewrite H6, Hrhel, Hins. reflexivity. }
    match goal with
    | |- context [let '(a, b) := ?r in _] =>
        replace r with (Some (Some rhel), Some (Some insights))
    end.
    assert (Hreg :
              forall (r : SSHCommandResult) vm h,
                bind (if (return_code r =? 0)%Z
                      then assign (set_subscribed true) else ret tt)
                  (fun _ => ret r) (mkMachine vm h)
                = (Returned r,
                   mkMachine
                     (if (return_code r =? 0)%Z
                      then set_subscribed true vm else vm) h)).
    { intros r vm h. destruct (return_code r =? 0)%Z; reflexivity. }
    rewrite Hreg. clear Hreg.
    change (mkMachine _ _) with m2 at 1.
    cbn [local is_not_None]. unfold bind at 1. unfold ret at 1.
    unfold bind at 1. unfold ret at 1.
    cbn [is_not_None]. unfold configure_rhel_repo.
    change ("yum install -y " ++ "redhat-access-insights") with install_cmd.
    change ("rpm -qi " ++ "redhat-access-insights") with query_cmd.
    change "redhat-access-insights --register" with register_cmd.
    unfold bind at 1. unfold bind at 1.
    rewrite run_created by exact Hc2. unfold ret at 1.
    unfold bind at 1. rewrite run_created by (cbn; exact Hc2).
    cbn [self history]. rewrite Hip. fold ip.
    rewrite <- app_assoc. cbn [app str_of_optional]. fold fetched.
    unfold bind at 1. rewrite run_created by (cbn; exact Hc2).
    cbn [self history]. rewrite Hip. fold ip. fold install.
    destruct (return_code install =? 0)%Z; cbn [negb]; [|reflexivity].
    unfold bind at 1. rewrite run_created by (cbn; exact Hc2).
    cbn [self history]. rewrite Hip. fold ip. fold query.
    destruct (return_code query =? 0)%Z; cbn [negb];
      [|rewrite <- app_assoc; reflexivity].
    unfold bind at 1. rewrite run_created by (cbn; exact Hc2).
    cbn [self history]. rewrite Hip. fold ip.
    rewrite <- app_assoc. cbn [app]. fold registration.
    destruct (return_code registration =? 0)%Z; cbn [negb];
      rewrite <- app_assoc; reflexivity. }
  rewrite Hout. cbn [fst snd].
  destruct (return_code install =? 0)%Z eqn:H1; cbn [negb].
  2:{ apply Z.eqb_neq in H1. split; [split|]; try discriminate.
      intros [H _]. contradiction. }
  destruct (return_code query =? 0)%Z eqn:H2; cbn [negb].
  2:{ apply Z.eqb_neq in H2. split; [split|]; try discriminate.
      intros (_ & H & _). contradiction. }
  destruct (return_code registration =? 0)%Z eqn:H3; cbn [negb].
  2:{ apply Z.eqb_neq in H3. split; [split|]; try discriminate.
      intros (_ & _ & H). contradiction. }
  apply Z.eqb_eq in H1, H2, H3. repeat split; assumption.
Qed.

(** ** The other helpers on a created machine *)

(** X18: when the policy lookup prints nothing,
    [execute_foreman_scap_client] raises [IndexError] on taking the first
    line, whatever the lookup exited with, and the scan is not sent. *)
Theorem execute_foreman_scap_client_empty_lookup (m : Machine) :
  let ip := ip_addr (self m) in
  _created (self m) = true ->
  stdout (ssh_result remote (history m) policy_lookup_command ip) = [] ->
  execute_foreman_scap_client remote None m
  = (Raised IndexError,
     mkMachine (self m)
       (history m ++ [SshCommand policy_lookup_command ip])%list).
Proof.
  intros ip Hc Hout. unfold execute_foreman_scap_client.
  unfold bind at 1. unfold bind at 1.
  rewrite (run_created remote _ m Hc).
  unfold bind at 1. unfold eval at 1. fold ip. rewrite Hout.
  reflexivity.
Qed.

(** X19: on a created machine [configure_puppet] returns exactly when the
    puppet install exits 0; the exit codes of the repository download, of
    the write to puppet.conf, of the two agent runs and of the
    certificate signing are not looked at.  When it returns it has sent
    six commands in order, the certificate signing to the default host of
    [ssh.command] and not to the machine. *)
Theorem configure_puppet_returns_iff_install_passes
    (m : Machine) (rhel_repo : option string) :
  let ip := ip_addr (self m) in
  let fetch :=
    "wget -O /etc/yum.repos.d/rhel.repo " ++ str_of_optional rhel_repo in
  let install :=
    ssh_result remote (history m ++ [SshCommand fetch ip])%list
      "yum install puppet -y" ip in
  let outcome := configure_puppet settings remote rhel_repo m in
  _created (self m) = true ->
  (fst outcome = Returned tt <-> return_code install = 0%Z)
  /\ (return_code install = 0%Z ->
      outcome
      = (Returned tt,
         mkMachine (self m)
           (history m
            ++ [SshCommand fetch ip;
                SshCommand "yum install puppet -y" ip;
                SshCommand
                  ("echo " ++ double_quote ++ puppet_conf settings
                   ++ double_quote ++ " >> /etc/puppet/puppet.conf") ip;
                SshCommand "puppet agent -t" ip;
                SshCommand "puppet cert sign --all" None;
                SshCommand "puppet agent -t 2> /dev/null" ip])%list)).
Proof.
  intros ip fetch install outcome Hc.
  assert (Hok : return_code install = 0%Z ->
                outcome
                = (Returned tt,
                   mkMachine (self m)
                     (history m
                      ++ [SshCommand fetch ip;
                          SshCommand "yum install puppet -y" ip;
                          SshCommand
                            ("echo " ++ double_quote ++ puppet_conf settings
                             ++ double_quote ++ " >> /etc/puppet/puppet.conf")
                            ip;
                          SshCommand "puppet agent -t" ip;
                          SshCommand "puppet cert sign --all" None;
                          SshCommand "puppet agent -t 2> /dev/null" ip])%list)).
  { intros Hrc. unfold outcome, configure_puppet, configure_rhel_repo.
    unfold bind at 1. unfold bind at 1.
    rewrite (run_created remote _ m Hc). unfold ret at 1.
    unfold bind at 1. rewrite run_created by exact Hc. cbn [self history].
    fold ip. fold fetch. fold install. rewrite Hrc. cbn [Z.eqb negb].
    unfold bind at 1. rewrite run_created by exact Hc. cbn [self history].
    unfold bind at 1. rewrite run_created by exact Hc. cbn [self history].
    unfold bind at 1. unfold ssh_command at 1. cbn [self history].
    unfold bind at 1. rewrite run_created by exact Hc. cbn [self history].
    unfold ret. fold ip. repeat rewrite <- app_assoc. reflexivity. }
  split; [|exact Hok]. split.
  - intros Hret. destruct (Z.eq_dec (return_code install) 0) as [H|H];
      [exact H|].
    unfold outcome in Hret.
    rewrite (configure_puppet_stops_at_failed_install settings remote m
               rhel_repo Hc H) in Hret.
    discriminate.
  - intros Hrc. rewrite (Hok Hrc). reflexivity.
Qed.

(** X20: on a created machine [download_install_rpm] always sends its
    three commands and [install_katello_agent] its two; each returns
    exactly when its last command, the query of the package, exits 0: a
    failed download or a failed install shows only there. *)
Theorem package_helpers_return_iff_query_passes
    (m : Machine) (repo_url package_name : string) :
  let ip := ip_addr (self m) in
  let rpm_calls :=
    [SshCommand ("wget -nd -r -l1 --no-parent -A '" ++ package_name
                 ++ ".rpm' " ++ repo_url) ip;
     SshCommand ("rpm -i " ++ package_name ++ ".rpm") ip] in
  let rpm_query := "rpm -q " ++ package_name in
  let agent_calls := [SshCommand "yum install -y katello-agent" ip] in
  let agent_query := "rpm -q katello-agent" in
  let rpm := download_install_rpm remote repo_url package_name m in
  let agent := install_katello_agent remote m in
  _created (self m) = true ->
  snd rpm
  = mkMachine (self m)
      (history m ++ rpm_calls ++ [SshCommand rpm_query ip])%list
  /\ (fst rpm = Returned tt
      <-> return_code
            (ssh_result remote (history m ++ rpm_calls)%list rpm_query ip)
          = 0%Z)
  /\ snd agent
     = mkMachine (self m)
         (history m ++ agent_calls ++ [SshCommand agent_query ip])%list
  /\ (fst agent = Returned tt
      <-> return_code
            (ssh_result remote (history m ++ agent_calls)%list agent_query ip)
          = 0%Z).
Proof.
  intros ip rpm_calls rpm_query agent_calls agent_query rpm agent Hc.
  assert (Hrpm :
            rpm
            = (if negb (return_code
                          (ssh_result remote (history m ++ rpm_calls)%list
                             rpm_query ip) =? 0)%Z
               then Raised (VirtualMachineError
                              ("Failed to install " ++ package_name ++ " rpm."))
               else Returned tt,
               mkMachine (self m)
                 (history m ++ rpm_calls ++ [SshCommand rpm_query ip])%list)).
  { unfold rpm, download_install_rpm.
    unfold bind at 1. rewrite (run_created remote _ m Hc).
    unfold bind at 1. rewrite run_created by exact Hc. cbn [self history].
    unfold bind at 1. rewrite run_created by exact Hc. cbn [self history].
    fold ip. fold rpm_query. repeat rewrite <- app_assoc. cbn [app].
    fold rpm_calls.
    destruct (return_code _ =? 0)%Z; reflexivity. }
  assert (Hagent :
            agent
            = (if negb (return_code
                          (ssh_result remote (history m ++ agent_calls)%list
                             agent_query ip) =? 0)%Z
               then Raised (VirtualMachineError
                              "Failed to install katello-agent")
               else Returned tt,
               mkMachine (self m)
                 (history m ++ agent_calls
                  ++ [SshCommand agent_query ip])%list)).
  { unfold agent, install_katello_agent.
    unfold bind at 1. rewrite (run_created remote _ m Hc).
    unfold bind at 1. rewrite run_created by exact Hc. cbn [self history].
    fold ip. fold agent_query. repeat rewrite <- app_assoc. cbn [app].
    fold agent_calls.
    match goal with
    | |- context [(return_code ?r =? 0)%Z] =>
        destruct (return_code r =? 0)%Z
    end; reflexivity. }
  rewrite Hrpm, Hagent. cbn [fst snd].
  split; [reflexivity|]. split; [|split; [reflexivity|]].
  - clear Hrpm Hagent.
    destruct (return_code _ =? 0)%Z eqn:H; cbn [negb].
    + apply Z.eqb_eq in H. split; auto.
    + apply Z.eqb_neq in H. split; [discriminate|contradiction].
  - clear Hrpm Hagent.
    destruct (return_code _ =? 0)%Z eqn:H; cbn [negb].
    + apply Z.eqb_eq in H. split; auto.
    + apply Z.eqb_neq in H. split; [discriminate|contradiction].
Qed.

(** ** Construction *)

(** X21: an argument of [__init__] wins over the configuration also when
    it is the empty string: an empty [provisioning_server] raises
    [VirtualMachineError] although one is configured, a non-empty one is
    stored as given, and an [image_dir] given, empty or not, is stored as
    given. *)
Theorem init_argument_wins_over_configuration
    (cpu_arg ram_arg : Z)
    (distro_arg image_dir_arg tag hostname_arg domain_arg
       target_image_arg : option string)
    (server : string) (id_self : Z) :
  let built :=
    __init__ settings cpu_arg ram_arg distro_arg (Some server) image_dir_arg
      tag hostname_arg domain_arg target_image_arg id_self in
  supported_distro settings (resolve_distro settings distro_arg) = true ->
  (server = "" -> exists msg, built = Raised (VirtualMachineError msg))
  /\ (server <> "" ->
      exists vm,
        built = Returned vm
        /\ provisioning_server vm = server
        /\ (forall dir, image_dir_arg = Some dir -> image_dir vm = Some dir)
        /\ (image_dir_arg = None ->
            image_dir vm = clients_image_dir settings)).
Proof.
  cbv zeta. intros Hs. unfold __init__. rewrite Hs. cbn [negb].
  unfold resolve_provisioning_server, missing_provisioning_server.
  cbn [is_not_None negb orb optional_eqb].
  split.
  - intros ->. cbn. eexists. reflexivity.
  - intros Hne. apply String.eqb_neq in Hne. rewrite Hne.
    eexists. split; [reflexivity|]. cbn.
    split; [reflexivity|]. split.
    + intros dir ->. reflexivity.
    + intros ->. reflexivity.
Qed.

(** X22: [__init__] accepts a provisioning server without a dot when no
    domain is given, but the machine it builds can never be created:
    [create] raises [VirtualMachineError] before any remote call. *)
Theorem init_accepts_dotless_server_create_rejects
    (cpu_arg ram_arg : Z)
    (distro_arg server_arg image_dir_arg tag hostname_arg
       target_image_arg : option string)
    (id_self : Z) (vm : VirtualMachine) (calls : list Event) :
  __init__ settings cpu_arg ram_arg distro_arg server_arg image_dir_arg tag
    hostname_arg None target_image_arg id_self = Returned vm ->
  contains_char "." (provisioning_server vm) = false ->
  exists msg,
    create remote (mkMachine vm calls)
    = (Raised (VirtualMachineError msg), mkMachine vm calls).
Proof.
  intros Hinit Hdot.
  assert (Hvm : _created vm = false /\ _domain vm = None).
  { revert Hinit. unfold __init__.
    destruct (negb _); [discriminate|].
    destruct (missing_provisioning_server _); [discriminate|].
    intros H. inversion H. split; reflexivity. }
  destruct Hvm as [Hc Hd].
  assert (Hdom : exists msg, domain vm = Raised (VirtualMachineError msg)).
  { unfold domain. rewrite Hd, (split_once_without_separator _ _ Hdot).
    eexists. reflexivity. }
  destruct Hdom as [msg Hmsg]. exists msg.
  unfold create, bind, read, eval. cbn [self]. rewrite Hc.
  unfold target_image, hostname. cbn [self].
  destruct (truthy (_hostname vm)); rewrite Hmsg; reflexivity.
Qed.

(** ** [destroy] on the machines that can arise *)

(** On a created machine the name of the image can be derived. *)
Definition name_resolvable (vm : VirtualMachine) : Prop :=
  _created vm = true -> exists name, target_image vm = Returned name.

Lemma create_keeps_name_resolvable (m : Machine) :
  name_resolvable (self m) -> name_resolvable (self (snd (create remote m))).
Proof.
  intros Hinv.
  destruct (create remote m) as [[[]|e] m1] eqn:Hcreate; cbn [snd].
  - destruct (_created (self m)) eqn:Hc.
    + rewrite (create_already_created remote m Hc) in Hcreate.
      inversion Hcreate; subst. exact Hinv.
    + destruct (create_returns remote m m1 Hc Hcreate)
        as (name & host & dom & address & Hn & _ & _ & _ & _ & _ & ->).
      intros _. exists name. exact Hn.
  - rewrite (create_raised_keeps_self m m1 e Hcreate). exact Hinv.
Qed.

Lemma name_resolvable_subscribed (vm vm' : VirtualMachine) :
  name_resolvable vm ->
  vm' = vm \/ becomes_subscribed vm vm' ->
  name_resolvable vm'.
Proof.
  intros Hinv [->|[Hc ->]]; [exact Hinv|].
  intros _. exact (Hinv Hc).
Qed.

Lemma perform_keeps_name_resolvable (op : Operation) (m : Machine) :
  name_resolvable (self m) ->
  name_resolvable
    (self (snd (perform settings remote DISTRO_RHEL6 DISTRO_RHEL7 op m))).
Proof.
  intros Hinv.
  destruct op; cbn [perform]; rewrite ?snd_discard;
    try (match goal with
         | |- name_resolvable (self (snd (?c m))) =>
             assert (Hkeep : self (snd (c m)) = self m);
             [|rewrite Hkeep; exact Hinv]
         end;
         first [ apply keeps_destroy | apply keeps_run | apply keeps_get
               | apply keeps_put | apply keeps_download_install_rpm
               | apply keeps_enable_repo | apply keeps_install_katello_agent
               | apply keeps_install_katello_ca
               | apply keeps_remove_katello_ca
               | apply keeps_configure_rhel_repo
               | apply keeps_configure_puppet
               | apply keeps_execute_foreman_scap_client ]).
  - apply create_keeps_name_resolvable, Hinv.
  - apply (name_resolvable_subscribed (self m)); [exact Hinv|].
    apply (register_contenthost_writes settings remote m _ org
             activation_key lce force releasever eq_refl).
  - apply (name_resolvable_subscribed (self m)); [exact Hinv|].
    apply (configure_rhai_client_writes settings remote DISTRO_RHEL6
             DISTRO_RHEL7 m _ activation_key org rhel_distro eq_refl).
  - pose proof (create_keeps_name_resolvable m Hinv) as H.
    unfold __enter__, bind, read.
    destruct (create remote m) as [[[]|e] m1]; exact H.
Qed.

(** X23: on every machine that construction and the operations of the
    class can produce, [destroy] returns without raising as long as the
    machine has an image directory: before [create] it does nothing, and
    after it the name of the image can always be derived. *)
Theorem destroy_never_raises_on_reachable (m : Machine) (dir : string) :
  reachable settings remote DISTRO_RHEL6 DISTRO_RHEL7 m ->
  image_dir (self m) = Some dir ->
  fst (destroy remote m) = Returned tt.
Proof.
  intros Hreach Hdir.
  assert (Hname : name_resolvable (self m)).
  { clear Hdir.
    induction Hreach as [? ? ? ? ? ? ? ? ? ? vm calls Hinit|m op _ IH].
    - intros Hc. apply (init_invariant settings) in Hinit.
      destruct Hinit as [_ Hstate]. unfold lifecycleState in Hstate.
      cbn [self] in Hc. rewrite Hc in Hstate. discriminate.
    - apply perform_keeps_name_resolvable, IH. }
  destruct (_created (self m)) eqn:Hc.
  - destruct (Hname Hc) as [name Hn].
    destruct (os_path_join_some dir (name ++ ".img")) as [path Hp].
    rewrite (destroy_created remote m name path Hc Hn);
      [reflexivity|rewrite Hdir; exact Hp].
  - rewrite (destroy_not_created remote m Hc). reflexivity.
Qed.

End Further.

(** ** Further concrete scenarios *)

(** A server on which every command exits 1. *)
Definition remote_all_failing : Remote :=
  mkRemote
    (fun _ _ _ => mkSSHCommandResult 1 [] "snap-guest: no such image")
    (fun _ _ => true) (fun _ _ => true).

(** snap-guest succeeds, everything else exits 1. *)
Definition remote_ping_failing : Remote :=
  mkRemote
    (fun _ cmd _ =>
       if prefix "snap-guest" cmd then answer 0 [] else answer 1 [])
    (fun _ _ => true) (fun _ _ => true).

(** Every command exits 0 and prints nothing. *)
Definition remote_silent : Remote :=
  mkRemote (fun _ _ _ => answer 0 []) (fun _ _ => true) (fun _ _ => true).

Definition insights_settings : Settings :=
  mkSettings (Some "rhel66") (Some "rhel71")
    (Some "provisioning.example.com") (Some "/var/lib/libvirt/images")
    (Some "satellite.example.com") (Some "admin") (Some "changeme")
    (Some "http://repo.example.com/rhel6.repo")
    (Some "http://repo.example.com/rhel7.repo")
    (Some "http://repo.example.com/insights6.repo")
    (Some "http://repo.example.com/insights7.repo").

(** [VirtualMachine(provisioning_server='localhost',
    hostname='client.example.com')]. *)
Definition dotless_vm : VirtualMachine :=
  mkVirtualMachine 1 512 (Some "rhel71") "localhost"
    (Some "/var/lib/libvirt/images") (Some "client.example.com") None None
    false false "140231".

Definition subscribed_machine : Machine :=
  mkMachine (set_subscribed true created_vm) [].

(** A created machine without image directory. *)
Definition no_image_dir_machine : Machine :=
  mkMachine
    (mkVirtualMachine 1 512 (Some "rhel71") "provisioning.example.com" None
       None (Some "192.0.2.5") None true false "140231") [].

Definition ping_failed_machine : Machine :=
  snd (create remote_ping_failing new_machine).

Lemma domain_derived_witness :
  domain example_vm = Returned "example.com"
  /\ exists msg, domain dotless_vm = Raised (VirtualMachineError msg).
Proof.
  split.
  - apply (proj2 (proj2 (domain_derived_from_provisioning_server example_vm))
             "provisioning" "example.com"); reflexivity.
  - apply (proj1 (proj2 (domain_derived_from_provisioning_server dotless_vm)));
      reflexivity.
Defined.

Lemma hostname_never_empty_witness :
  "140231.example.com" <> ""
  /\ (truthy (_hostname example_vm) = false ->
      exists d,
        domain example_vm = Returned d
        /\ "140231.example.com" = _target_image example_vm ++ "." ++ d
        /\ target_image example_vm = Returned "140231.example.com").
Proof.
  apply (hostname_never_empty example_vm "140231.example.com").
  reflexivity.
Defined.

Lemma parse_address_returns_witness :
  (exists address, parse_address "PING vm.local (192.0.2.5" = Returned address)
  /\ contains_char "(" "192.0.2.5" = false
  /\ contains_char ")" "192.0.2.5" = false.
Proof.
  split.
  - apply (proj2 (proj1 (parse_address_returns_iff_open_parenthesis
                           "PING vm.local (192.0.2.5"))).
    reflexivity.
  - apply (proj2 (parse_address_returns_iff_open_parenthesis
                    "PING vm.local (192.0.2.5")).
    reflexivity.
Defined.

Lemma parse_address_parenthesized_witness :
  parse_address
    ("PING vm.local " ++ "(" ++ "192.0.2.5" ++ ")" ++ " 56(84) bytes of data.")
  = Returned "192.0.2.5".
Proof.
  apply (parse_address_parenthesized "PING vm.local " "192.0.2.5"
           " 56(84) bytes of data."); reflexivity.
Defined.

Lemma create_without_domain_witness :
  create remote_silent (mkMachine dotless_vm [])
  = (Raised (VirtualMachineError
               "Failed to fetch domain from provisioning server: localhost "),
     mkMachine dotless_vm []).
Proof.
  apply (create_raises_before_any_call_without_domain remote_silent
           (mkMachine dotless_vm [])); reflexivity.
Defined.

Lemma create_failure_modes_witness :
  create remote_all_failing new_machine
  = (Raised (VirtualMachineError
               "Failed to run snap-guest: snap-guest: no such image"),
     mkMachine example_vm
       [SshCommand
          ("snap-guest -b rhel71-base -t 140231.example.com -m 512 -c 1 "
           ++ "-n bridge=br0 -f -p /var/lib/libvirt/images")
          (Some "provisioning.example.com")])
  /\ fst (create remote_ping_failing new_machine)
     = Raised (VirtualMachineError
                 "Failed to fetch virtual machine IP address information").
Proof.
  split.
  - apply (proj1 (create_failure_modes remote_all_failing new_machine
                    "140231.example.com" "140231.example.com" "example.com"
                    eq_refl eq_refl eq_refl eq_refl)).
    simpl. discriminate.
  - rewrite (proj2 (create_failure_modes remote_ping_failing new_machine
                      "140231.example.com" "140231.example.com"
                      "example.com" eq_refl eq_refl eq_refl eq_refl)).
    + reflexivity.
    + reflexivity.
    + simpl. discriminate.
Defined.

Lemma failed_create_witness :
  self ping_failed_machine = self new_machine
  /\ _created (self ping_failed_machine) = false
  /\ destroy remote_ping_failing ping_failed_machine
     = (Returned tt, ping_failed_machine)
  /\ with_statement remote_ping_failing failing_block new_machine
     = (Raised (VirtualMachineError
                  "Failed to fetch virtual machine IP address information"),
        ping_failed_machine).
Proof.
  apply (failed_create_is_never_torn_down remote_ping_failing failing_block
           new_machine ping_failed_machine).
  reflexivity.
Defined.

Lemma destroy_twice_witness :
  exists path,
    os_path_join (Some "/var/lib/libvirt/images")
      ("140231.example.com" ++ ".img") = Returned path
    /\ let calls :=
         (unregister_events (self booted_machine)
          ++ teardown_events (self booted_machine) "140231.example.com"
               path)%list in
       (destroy remote_failing_after_boot ;;; destroy remote_failing_after_boot)
         booted_machine
       = (Returned tt,
          mkMachine (self booted_machine)
            (history booted_machine ++ calls ++ calls)%list).
Proof.
  apply (destroy_twice_repeats_teardown remote_failing_after_boot
           booted_machine "140231.example.com" "/var/lib/libvirt/images");
    reflexivity.
Defined.

Lemma destroy_without_image_dir_witness :
  exists e,
    destroy remote_silent no_image_dir_machine
    = (Raised e,
       mkMachine (self no_image_dir_machine)
         (history no_image_dir_machine
          ++ unregister_events (self no_image_dir_machine)
          ++ [SshCommand ("virsh destroy " ++ "140231.example.com")
                (Some "provisioning.example.com");
              SshCommand ("virsh undefine " ++ "140231.example.com")
                (Some "provisioning.example.com")])%list).
Proof.
  apply (destroy_without_image_dir_raises_before_rm remote_silent
           no_image_dir_machine "140231.example.com"); reflexivity.
Defined.

Lemma unregister_keeps_subscribed_witness :
  let call := SshCommand "subscription-manager unregister" (Some "192.0.2.5") in
  unregister remote_silent subscribed_machine
  = (Returned (answer 0 []),
     mkMachine (self subscribed_machine) [call])
  /\ exists path,
       os_path_join (Some "/var/lib/libvirt/images")
         ("140231.example.com" ++ ".img") = Returned path
       /\ (unregister remote_silent ;;; destroy remote_silent)
            subscribed_machine
          = (Returned tt,
             mkMachine (self subscribed_machine)
               ([call; call]
                ++ teardown_events (self subscribed_machine)
                     "140231.example.com" path)%list).
Proof.
  apply (unregister_keeps_subscribed_flag remote_silent subscribed_machine
           "140231.example.com" "/var/lib/libvirt/images"); reflexivity.
Defined.

Lemma create_then_destroy_witness :
  exists name host dom path,
    let server := Some (provisioning_server (self new_machine)) in
    nth_error (command_args (self new_machine) name host dom) 2
    = Some ("-t " ++ name)
    /\ os_path_join (Some "/var/lib/libvirt/images") (name ++ ".img")
       = Returned path
    /\ (create remote_failing_after_boot ;;; destroy remote_failing_after_boot)
         new_machine
       = (Returned tt,
          mkMachine (self booted_machine)
            (history new_machine
             ++ [SshCommand
                   (String.concat " "
                      (command_args (self new_machine) name host dom))
                   server;
                 TimeSleep 60;
                 SshCommand (ping_command (self new_machine)) server;
                 SshCommand ("virsh destroy " ++ name) server;
                 SshCommand ("virsh undefine " ++ name) server;
                 SshCommand ("rm " ++ path) server])%list).
Proof.
  apply (create_then_destroy_use_one_name remote_failing_after_boot
           new_machine booted_machine "/var/lib/libvirt/images");
    reflexivity.
Defined.

Lemma operations_only_raise_flags_witness :
  same_configuration (self new_machine)
    (self (snd (perform example_settings remote_failing_after_boot
                  "rhel6" "rhel7" Create new_machine)))
  /\ (_created (self created_machine) = true ->
      _created
        (self (snd (perform example_settings remote_failing_after_boot
                      "rhel6" "rhel7" Create created_machine))) = true
      /\ ip_addr
           (self (snd (perform example_settings remote_failing_after_boot
                         "rhel6" "rhel7" Create created_machine)))
         = ip_addr (self created_machine)).
Proof.
  split.
  - apply (proj1 (operations_only_raise_flags example_settings
                    remote_failing_after_boot "rhel6" "rhel7" Create
                    new_machine)).
  - apply (proj1 (proj2 (operations_only_raise_flags example_settings
                           remote_failing_after_boot "rhel6" "rhel7" Create
                           created_machine))).
Defined.

Lemma run_based_operations_refuse_witness :
  exists msg,
    perform example_settings remote_silent "rhel6" "rhel7"
      (ConfigurePuppet None) new_machine
    = (Raised (VirtualMachineError msg), new_machine).
Proof.
  apply (run_based_operations_refuse_uncreated example_settings remote_silent
           "rhel6" "rhel7" (ConfigurePuppet None) new_machine);
    reflexivity.
Defined.

Lemma configure_rhai_client_uncreated_witness :
  exists msg,
    configure_rhai_client example_settings remote_silent "rhel6" "rhel7"
      (Some "key") "Org1" "rhel7" new_machine
    = (Raised (VirtualMachineError msg),
       mkMachine (self new_machine)
         (history new_machine ++ [InstallKatelloCa None])%list).
Proof.
  apply (configure_rhai_client_uncreated_still_calls_helper example_settings
           remote_silent "rhel6" "rhel7" new_machine (Some "key") "Org1"
           "rhel7").
  reflexivity.
Defined.

Lemma configure_rhai_client_unknown_distro_witness :
  configure_rhai_client insights_settings remote_silent "rhel6" "rhel7"
    (Some "key") "Org1" "rhel8" created_machine
  = (Raised (UnboundLocalError "insights_repo"),
     rhai_registered remote_silent created_machine "Org1" "key").
Proof.
  apply (configure_rhai_client_unknown_distro insights_settings remote_silent
           "rhel6" "rhel7" created_machine "Org1" "key" "rhel8");
    try reflexivity; discriminate.
Defined.

Lemma configure_rhai_client_missing_repository_witness :
  exists msg,
    configure_rhai_client example_settings remote_silent "rhel6" "rhel7"
      (Some "key") "Org1" "rhel7" created_machine
    = (Raised (VirtualMachineError msg),
       rhai_registered remote_silent created_machine "Org1" "key").
Proof.
  apply (configure_rhai_client_missing_repository example_settings
           remote_silent "rhel6" "rhel7" created_machine "Org1" "key"
           "rhel7").
  - reflexivity.
  - reflexivity.
  - right. reflexivity.
  - left. reflexivity.
Defined.

Lemma configure_rhai_client_returns_witness :
  fst (configure_rhai_client insights_settings remote_silent "rhel6" "rhel7"
         (Some "key") "Org1" "rhel7" created_machine)
  = Returned tt.
Proof.
  apply (proj1 (configure_rhai_client_returns_iff_checks_pass
                  insights_settings remote_silent "rhel6" "rhel7"
                  created_machine "Org1" "key" "rhel7"
                  "http://repo.example.com/rhel7.repo"
                  "http://repo.example.com/insights7.repo"
                  eq_refl eq_refl (or_intror eq_refl) eq_refl eq_refl)).
  repeat split.
Defined.

Lemma execute_foreman_scap_client_empty_lookup_witness :
  execute_foreman_scap_client remote_silent None created_machine
  = (Raised IndexError,
     mkMachine created_vm
       [SshCommand policy_lookup_command (Some "192.0.2.5")]).
Proof.
  apply (execute_foreman_scap_client_empty_lookup remote_silent
           created_machine); reflexivity.
Defined.

Lemma configure_puppet_returns_witness :
  fst (configure_puppet example_settings remote_silent None created_machine)
  = Returned tt
  /\ fst (configure_puppet example_settings remote_all_failing None
            created_machine)
     <> Returned tt.
Proof.
  split.
  - apply (proj1 (configure_puppet_returns_iff_install_passes
                    example_settings remote_silent created_machine None
                    eq_refl)).
    reflexivity.
  - intros H.
    apply (proj1 (configure_puppet_returns_iff_install_passes
                    example_settings remote_all_failing created_machine None
                    eq_refl)) in H.
    simpl in H. discriminate H.
Defined.

Lemma package_helpers_witness :
  fst (download_install_rpm remote_silent "http://repo.example.com/custom"
         "walrus" created_machine)
  = Returned tt
  /\ snd (install_katello_agent remote_all_failing created_machine)
     = mkMachine created_vm
         [SshCommand "yum install -y katello-agent" (Some "192.0.2.5");
          SshCommand "rpm -q katello-agent" (Some "192.0.2.5")].
Proof.
  split.
  - apply (proj1 (proj2 (package_helpers_return_iff_query_passes
                           remote_silent created_machine
                           "http://repo.example.com/custom" "walrus"
                           eq_refl))).
    reflexivity.
  - apply (proj1 (proj2 (proj2 (package_helpers_return_iff_query_passes
                                  remote_all_failing created_machine
                                  "http://repo.example.com/custom" "walrus"
                                  eq_refl)))).
Defined.

Lemma init_argument_wins_witness :
  (exists msg,
     __init__ example_settings 1 512 None (Some "") None None None None None
       140231 = Raised (VirtualMachineError msg))
  /\ (exists vm,
        __init__ example_settings 1 512 None (Some "other.example.com")
          (Some "") None None None None 140231 = Returned vm
        /\ provisioning_server vm = "other.example.com"
        /\ (forall dir, Some "" = Some dir -> image_dir vm = Some dir)
        /\ (Some "" = None ->
            image_dir vm = clients_image_dir example_settings)).
Proof.
  split.
  - apply (proj1 (init_argument_wins_over_configuration example_settings
                    1 512 None None None None None None "" 140231 eq_refl)).
    reflexivity.
  - apply (proj2 (init_argument_wins_over_configuration example_settings
                    1 512 None (Some "") None None None None
                    "other.example.com" 140231 eq_refl)).
    discriminate.
Defined.

Lemma init_dotless_server_witness :
  exists msg,
    create remote_silent (mkMachine dotless_vm [])
    = (Raised (VirtualMachineError msg), mkMachine dotless_vm []).
Proof.
  apply (init_accepts_dotless_server_create_rejects example_settings
           remote_silent 1 512 None (Some "localhost") None None
           (Some "client.example.com") None 140231 dotless_vm []);
    reflexivity.
Defined.

Lemma destroy_never_raises_witness :
  fst (destroy remote_failing_after_boot
         (snd (perform example_settings remote_failing_after_boot
                 "rhel6" "rhel7" Create new_machine)))
  = Returned tt.
Proof.
  apply (destroy_never_raises_on_reachable example_settings
           remote_failing_after_boot "rhel6" "rhel7"
           (snd (perform example_settings remote_failing_after_boot
                   "rhel6" "rhel7" Create new_machine))
           "/var/lib/libvirt/images").
  - apply reachable_perform.
    apply (reachable_init example_settings remote_failing_after_boot
             "rhel6" "rhel7" 1 512 None None None None None None None 140231
             example_vm []).
    reflexivity.
  - reflexivity.
Defined.
